(** * graphile-worker-ui: derived job status, status filters, dashboard
      counts, URL-synchronised filter state, pagination and the job
      management mutations.

    The development is a shallow embedding of the JavaScript sources.  Each
    definition names the source function it embeds.  JavaScript numbers that
    the code only ever uses as integers (attempt counters, page indices,
    row counts, millisecond intervals) are modelled in [Z]; where a
    number comes from text of any length (a page number in the address)
    the integer is rounded to the number that stores it ([Js.toDouble]),
    with [2^1024] for [Infinity].  Text values are [string], the bytes of
    their UTF-8 form; a nullable GraphQL field is an [option]. *)

From Stdlib Require Import ZArith String Ascii List Bool Lia.
From Stdlib Require Import DecimalString DecimalN DecimalPos DecimalFacts.
From ExtLib Require Import Structures.Monad Structures.MonadState Structures.MonadExc.
From ExtLib Require Import Data.Monads.StateMonad Data.Monads.EitherMonad.
Import ListNotations.
Import MonadNotation.

Local Open Scope string_scope.
Local Open Scope Z_scope.

(* ===================================================================== *)
(** ** JavaScript values used by the views *)
(* ===================================================================== *)

Module Js.

(** Truthiness of a nullable string: [null]/[undefined] and the empty
    string are falsy, every other string is truthy. *)
Definition truthy (v : option string) : bool :=
  match v with
  | None => false
  | Some s => negb (String.eqb s "")
  end.

(** [v || d] for a nullable string [v] and a string default [d]. *)
Definition or_else (v : option string) (d : string) : string :=
  match v with
  | Some s => if String.eqb s "" then d else s
  | None => d
  end.

(** [v ?? d] on a nullable number. *)
Definition nullish (v : option Z) (d : Z) : Z :=
  match v with
  | Some n => n
  | None => d
  end.

(** [n || 0] on a number: [0] is the only falsy integer. *)
Definition num_or_zero (n : Z) : Z := if n =? 0 then 0 else n.

(** [Number.MAX_SAFE_INTEGER]: up to this bound the arithmetic of
    JavaScript numbers on integers is the arithmetic of [Z]. *)
Definition MAX_SAFE_INTEGER : Z := 9007199254740991.

(** [Infinity]: an integer of this magnitude is too large for a number
    and stands for the infinite one. *)
Definition Infinity : Z := 2 ^ 1024.

(** [Number.isFinite(n)] for a number that is not [NaN]. *)
Definition isFinite (n : Z) : bool := Z.abs n <? Infinity.

(** The number in which an integer result is stored: the integer itself
    up to [2^53] in magnitude; beyond that the nearest integer with a
    mantissa of 53 bits, the one with the even mantissa on a tie; and
    [Infinity] once that reaches [2^1024]. *)
Definition toDouble (n : Z) : Z :=
  let a := Z.abs n in
  if a <=? 9007199254740992 then n
  else
    let e := Z.log2 a - 52 in
    let q := a / 2 ^ e in
    let r := a mod 2 ^ e in
    let q' := if (2 * r >? 2 ^ e) || ((2 * r =? 2 ^ e) && Z.odd q) then q + 1 else q in
    Z.sgn n * Z.min (q' * 2 ^ e) Infinity.

(** The decimal digits of an integer, with a minus sign when negative. *)
Definition decimal (n : Z) : string := NilZero.string_of_int (Z.to_int n).

Fixpoint zeros (n : nat) : string :=
  match n with
  | O => ""
  | S m => String "0" (zeros m)
  end.

(** A digit string without its trailing zeros. *)
Fixpoint strip_zeros (s : string) : string :=
  match s with
  | EmptyString => ""
  | String c r =>
      match strip_zeros r with
      | EmptyString => if Ascii.eqb c "0" then "" else String c ""
      | r' => String c r'
      end
  end.

(** The two multiples of [10^z] next to [a], each as an integer [s] to
    be followed by [z] zeros; the one nearer to [a] comes first, on a
    tie the even [s]. *)
Definition candidates (a z : Z) : list (Z * Z) :=
  let p := 10 ^ z in
  let lo := a / p in
  let r := a mod p in
  if r =? 0 then [(lo, z)]
  else if (2 * r <? p) || ((2 * r =? p) && Z.even lo)
       then [(lo, z); (lo + 1, z)]
       else [(lo + 1, z); (lo, z)].

(** The integer [s] followed by [z] zeros is stored as the number [a]. *)
Definition reads_as (a : Z) (c : Z * Z) : bool :=
  (0 <? fst c) && (0 <=? snd c) && (toDouble (fst c * 10 ^ snd c) =? a).

(** The first of the digit counts [ks] at which a candidate is stored
    as [a], where [a] has [d] digits. *)
Fixpoint search (a d : Z) (ks : list Z) : option (Z * Z) :=
  match ks with
  | [] => None
  | k :: rest =>
      match find (reads_as a) (candidates a (d - k)) with
      | Some c => Some c
      | None => search a d rest
      end
  end.

(** The digits of [Number::toString] for a positive number [a] beyond
    [2^53]: the fewest significant digits (17 always suffice) that are
    stored as [a], as an integer [s] and the number [z] of zeros that
    follow it. *)
Definition shortest (a : Z) : option (Z * Z) :=
  let d := Z.of_nat (String.length (decimal a)) in
  match search a d [1; 2; 3; 4; 5; 6; 7; 8; 9; 10; 11; 12; 13; 14; 15; 16; 17] with
  | Some c => Some c
  | None => if reads_as a (a, 0) then Some (a, 0) else None
  end.

(** The form [d.ddde+x] of the integer [s] followed by [z] zeros. *)
Definition exponential (s z : Z) : string :=
  let digits := decimal s in
  let e := Z.of_nat (String.length digits) + z - 1 in
  match strip_zeros digits with
  | EmptyString => "NaN"
  | String c EmptyString => String c ("e+" ++ decimal e)
  | String c r => String c ("." ++ r ++ "e+" ++ decimal e)
  end.

(** [String(a)] for a positive number [a] beyond [2^53]: all the digits
    below [10^21], the exponential form from there on. *)
Definition String_large (a : Z) : string :=
  if Infinity <=? a then "Infinity"
  else match shortest a with
       | Some (s, z) =>
           if a <? 10 ^ 21 then decimal s ++ zeros (Z.to_nat z)
           else exponential s z
       | None => "NaN"
       end.

(** [String(n)] for an integer-valued number [n]. *)
Definition String_ (n : Z) : string :=
  if Z.abs n <=? 9007199254740992 then decimal n
  else if n <? 0 then String "-" (String_large (- n))
  else String_large n.

(** Value of a decimal digit character. *)
Definition digit_value (c : ascii) : option Z :=
  let n := Z.of_N (N_of_ascii c) in
  if (48 <=? n) && (n <=? 57) then Some (n - 48) else None.

Definition byte (c : ascii) : Z := Z.of_N (N_of_ascii c).

(** The white space [parseInt] skips, among the one-byte characters:
    the space, and the tab, line feed, vertical tab, form feed and
    carriage return. *)
Definition is_space (c : ascii) : bool :=
  let n := byte c in
  (n =? 32) || ((9 <=? n) && (n <=? 13)).

(** The white space of more than one byte, by the bytes of its UTF-8
    form: U+00A0, U+1680, U+2000 to U+200A, U+2028, U+2029, U+202F,
    U+205F, U+3000 and U+FEFF.  [Some r] is the text after it. *)
Definition wide_space (s : string) : option string :=
  match s with
  | String c1 r1 =>
      if byte c1 =? 194 then
        match r1 with
        | String c2 r2 => if byte c2 =? 160 then Some r2 else None
        | EmptyString => None
        end
      else if (byte c1 =? 225) || (byte c1 =? 226) || (byte c1 =? 227) || (byte c1 =? 239) then
        match r1 with
        | String c2 (String c3 r3) =>
            let b1 := byte c1 in
            let b2 := byte c2 in
            let b3 := byte c3 in
            if ((b1 =? 225) && (b2 =? 154) && (b3 =? 128))
               || ((b1 =? 226) && (b2 =? 128)
                   && (((128 <=? b3) && (b3 <=? 138)) || (b3 =? 168) || (b3 =? 169) || (b3 =? 175)))
               || ((b1 =? 226) && (b2 =? 129) && (b3 =? 159))
               || ((b1 =? 227) && (b2 =? 128) && (b3 =? 128))
               || ((b1 =? 239) && (b2 =? 187) && (b3 =? 191))
            then Some r3 else None
        | _ => None
        end
      else None
  | EmptyString => None
  end.

(** The text after its leading white space. *)
Fixpoint skip_spaces (s : string) : string :=
  match s with
  | EmptyString => s
  | String c1 r1 =>
      if is_space c1 then skip_spaces r1
      else if byte c1 =? 194 then
        match r1 with
        | String c2 r2 => if byte c2 =? 160 then skip_spaces r2 else s
        | EmptyString => s
        end
      else if (byte c1 =? 225) || (byte c1 =? 226) || (byte c1 =? 227) || (byte c1 =? 239) then
        match r1 with
        | String c2 (String c3 r3) =>
            match wide_space s with
            | Some _ => skip_spaces r3
            | None => s
            end
        | _ => s
        end
      else s
  end.

(** The longest prefix of decimal digits, read most significant first;
    [acc] is [None] as long as no digit was read. *)
Fixpoint parse_digits (s : string) (acc : option Z) : option Z :=
  match s with
  | EmptyString => acc
  | String c r =>
      match digit_value c with
      | Some d => parse_digits r (Some (10 * nullish acc 0 + d))
      | None => acc
      end
  end.

(** [parseInt(s, 10)]: leading white space is skipped, one sign is
    accepted, then the longest run of digits is read and whatever follows
    is ignored; the integer read is stored as a number.  [None] is [NaN]
    (no digit where one is expected). *)
Definition parseInt (s : string) : option Z :=
  match skip_spaces s with
  | String "-" r => option_map (fun m => toDouble (- m)) (parse_digits r None)
  | String "+" r => option_map toDouble (parse_digits r None)
  | r => option_map toDouble (parse_digits r None)
  end.

End Js.

(** A text that does not continue a numeral: it is empty or starts with
    a character that is no digit. *)
Definition no_digit (t : string) : Prop :=
  match t with
  | EmptyString => True
  | String c _ => Js.digit_value c = None
  end.

(* ===================================================================== *)
(** ** The job row as the GraphQL API returns it *)
(* ===================================================================== *)

Record Job : Type := mkJob {
  id : string;
  queueName : option string;
  taskIdentifier : string;
  key : option string;
  attempts : Z;
  maxAttempts : Z;
  lastError : option string;
  lockedAt : option string
}.

(** The four status literals, in the order of the status drop-down. *)
Definition statuses : list string := ["pending"; "running"; "failed"; "completed"].

(** Constraints of the job table on the fields the views read: the
    attempt counter starts at zero, the bound on attempts is positive, and
    an error text or lock timestamp that is present is not the empty
    string. *)
Definition consistent (j : Job) : Prop :=
  0 <= attempts j /\ 1 <= maxAttempts j /\
  lastError j <> Some "" /\ lockedAt j <> Some "".

(* ===================================================================== *)
(** ** Derived status, one definition per view *)
(* ===================================================================== *)

(** The job detail panel with the retry/cancel/complete buttons
    ([components/JobDetails.jsx]). *)
Module JobDetails.

(** [const getJobStatus = (job) => ...]. *)
Definition getJobStatus (job : Job) : string :=
  if Js.truthy (lockedAt job) then "running"
  else if (attempts job >=? maxAttempts job) && Js.truthy (lastError job) then "failed"
  else if (attempts job >? 0) && negb (Js.truthy (lastError job))
          && negb (Js.truthy (lockedAt job)) then "completed"
  else "pending".

(** [pollInterval: 2000, // Poll every 2 seconds for real-time updates]. *)
Definition pollInterval : Z := 2000.

End JobDetails.

(** The routed job page ([/jobs/:id]), a read-only detail view. *)
Module JobPage.

(** [const status = job.lockedAt ? 'running' : job.lastError ? 'failed'
    : job.attempts > 0 ? 'completed' : 'pending']. *)
Definition status (job : Job) : string :=
  if Js.truthy (lockedAt job) then "running"
  else if Js.truthy (lastError job) then "failed"
  else if attempts job >? 0 then "completed"
  else "pending".

Definition pollInterval : Z := 10000.

End JobPage.

(** The queues view. *)
Module Queues.

Definition pollInterval : Z := 15000.

End Queues.

(* ===================================================================== *)
(** ** Connection filters of the GraphQL API *)
(* ===================================================================== *)

(** The filter objects the job list sends as [$filter: JobFilter].  The
    argument is interpreted by the API's connection-filter plugin, which
    is not part of the sources; [satisfies] follows its documented
    meaning: the operators of one column, the columns of one object and
    the members of an [and] list are all conjoined, and a comparison with
    an SQL [NULL] selects no row. *)
Module ConnectionFilter.

Inductive Scalar : Type :=
| VStr (s : string)
| VInt (n : Z).

Inductive Operator : Type :=
| isNull (b : bool)
| equalTo (v : Scalar)
| greaterThan (v : Scalar).

(** A JavaScript filter object: its column keys in insertion order and
    its [and] key. *)
#[local] Unset Elimination Schemes.
Inductive JobFilter : Type :=
| Filter (fields : list (string * Operator)) (and_ : option (list JobFilter)).
#[local] Set Elimination Schemes.

Definition empty : JobFilter := Filter [] None.

Fixpoint assign_field (k : string) (op : Operator) (fs : list (string * Operator))
  : list (string * Operator) :=
  match fs with
  | [] => [(k, op)]
  | (k', op') :: r =>
      if String.eqb k' k then (k, op) :: r else (k', op') :: assign_field k op r
  end.

(** [filter[k] = op]. *)
Definition set_field (k : string) (op : Operator) (f : JobFilter) : JobFilter :=
  match f with
  | Filter fs a => Filter (assign_field k op fs) a
  end.

(** [filter.and = l]. *)
Definition set_and (l : list JobFilter) (f : JobFilter) : JobFilter :=
  match f with
  | Filter fs _ => Filter fs (Some l)
  end.

(** [Object.keys(filter).length]. *)
Definition keys_length (f : JobFilter) : Z :=
  match f with
  | Filter fs a => Z.of_nat (List.length fs) + match a with Some _ => 1 | None => 0 end
  end.

(** The value of a filterable column of a job row; [None] is [NULL]. *)
Definition column_value (j : Job) (k : string) : option Scalar :=
  if String.eqb k "taskIdentifier" then Some (VStr (taskIdentifier j))
  else if String.eqb k "queueName" then option_map VStr (queueName j)
  else if String.eqb k "lockedAt" then option_map VStr (lockedAt j)
  else if String.eqb k "lastError" then option_map VStr (lastError j)
  else if String.eqb k "attempts" then Some (VInt (attempts j))
  else if String.eqb k "maxAttempts" then Some (VInt (maxAttempts j))
  else None.

Definition eval_op (v : option Scalar) (op : Operator) : bool :=
  match op, v with
  | isNull b, None => b
  | isNull b, Some _ => negb b
  | equalTo (VStr w), Some (VStr x) => String.eqb x w
  | equalTo (VInt w), Some (VInt x) => x =? w
  | greaterThan (VStr w), Some (VStr x) => String.ltb w x
  | greaterThan (VInt w), Some (VInt x) => x >? w
  | _, _ => false
  end.

Fixpoint satisfies (j : Job) (f : JobFilter) : bool :=
  match f with
  | Filter fs a =>
      forallb (fun kv => eval_op (column_value j (fst kv)) (snd kv)) fs
      && match a with
         | None => true
         | Some l => forallb (satisfies j) l
         end
  end.

(** [v IS NOT NULL]. *)
Definition present (v : option string) : bool :=
  match v with
  | Some _ => true
  | None => false
  end.

(** A query whose [filter] variable is [undefined] selects every row. *)
Definition selects (f : option JobFilter) (j : Job) : bool :=
  match f with
  | None => true
  | Some g => satisfies j g
  end.

End ConnectionFilter.

(* ===================================================================== *)
(** ** The query parameters of the page address *)
(* ===================================================================== *)

(** [URLSearchParams]: an ordered list of name/value pairs.  [get] reads
    the first pair of a name; [set] overwrites it and drops the others.
    Its text serialisation belongs to the browser and is injective on
    these lists, so two objects serialise alike iff the lists are equal. *)
Module URLSearchParams.

Definition t : Type := list (string * string).

Fixpoint get (name : string) (p : t) : option string :=
  match p with
  | [] => None
  | (k, v) :: r => if String.eqb k name then Some v else get name r
  end.

Definition remove (name : string) (p : t) : t :=
  filter (fun kv => negb (String.eqb (fst kv) name)) p.

Fixpoint set (name value : string) (p : t) : t :=
  match p with
  | [] => [(name, value)]
  | (k, v) :: r =>
      if String.eqb k name then (name, value) :: remove name r
      else (k, v) :: set name value r
  end.

Fixpoint eqb (p q : t) : bool :=
  match p, q with
  | [], [] => true
  | (k, v) :: p', (k', v') :: q' => String.eqb k k' && String.eqb v v' && eqb p' q'
  | _, _ => false
  end.

End URLSearchParams.

(* ===================================================================== *)
(** ** The job list *)
(* ===================================================================== *)

Module JobList.

Import ConnectionFilter.

(** The [useState] cells of the view that are mirrored in the address;
    [currentPage] is the zero-based page index. *)
Record State : Type := mkState {
  searchTerm : string;
  statusFilter : string;
  taskFilter : string;
  queueFilter : string;
  currentPage : Z
}.

(** [Number.isFinite(p) && p > 0 ? p - 1 : 0] for [p = parseInt(..., 10)]. *)
Definition pageIndex (page : string) : Z :=
  match Js.parseInt page with
  | Some p => if Js.isFinite p && (p >? 0) then Js.toDouble (p - 1) else 0
  | None => 0
  end.

(** The initialisers of the five [useState] cells. *)
Definition initialState (searchParams : URLSearchParams.t) : State :=
  {| searchTerm := Js.or_else (URLSearchParams.get "q" searchParams) "";
     statusFilter := Js.or_else (URLSearchParams.get "status" searchParams) "all";
     taskFilter := Js.or_else (URLSearchParams.get "task" searchParams) "all";
     queueFilter := Js.or_else (URLSearchParams.get "queue" searchParams) "all";
     currentPage := pageIndex (Js.or_else (URLSearchParams.get "page" searchParams) "1") |}.

(** The parameters the effect "Keep URL in sync with state" builds. *)
Definition stateParams (st : State) : URLSearchParams.t :=
  let params : URLSearchParams.t := [] in
  let params :=
    if negb (String.eqb (searchTerm st) "")
    then URLSearchParams.set "q" (searchTerm st) params else params in
  let params :=
    if negb (String.eqb (statusFilter st) "") && negb (String.eqb (statusFilter st) "all")
    then URLSearchParams.set "status" (statusFilter st) params else params in
  let params :=
    if negb (String.eqb (taskFilter st) "") && negb (String.eqb (taskFilter st) "all")
    then URLSearchParams.set "task" (taskFilter st) params else params in
  let params :=
    if negb (String.eqb (queueFilter st) "") && negb (String.eqb (queueFilter st) "all")
    then URLSearchParams.set "queue" (queueFilter st) params else params in
  let pageOneBased := Js.toDouble (Js.num_or_zero (currentPage st) + 1) in
  if negb (pageOneBased =? 1)
  then URLSearchParams.set "page" (Js.String_ pageOneBased) params else params.

(** The same effect as a whole: the address is replaced only when the
    new parameters serialise differently from the current ones; the
    result is the parameters of the address afterwards. *)
Definition syncUrl (st : State) (searchParams : URLSearchParams.t) : URLSearchParams.t :=
  let params := stateParams st in
  if negb (URLSearchParams.eqb params searchParams) then params else searchParams.

(** The effect "Update state if URL changes": each cell is set when the
    value read from the address differs from it. *)
Definition syncState (searchParams : URLSearchParams.t) (st : State) : State :=
  let q := Js.or_else (URLSearchParams.get "q" searchParams) "" in
  let status := Js.or_else (URLSearchParams.get "status" searchParams) "all" in
  let task := Js.or_else (URLSearchParams.get "task" searchParams) "all" in
  let queue := Js.or_else (URLSearchParams.get "queue" searchParams) "all" in
  let pageIdx := pageIndex (Js.or_else (URLSearchParams.get "page" searchParams) "1") in
  {| searchTerm := if negb (String.eqb q (searchTerm st)) then q else searchTerm st;
     statusFilter := if negb (String.eqb status (statusFilter st)) then status else statusFilter st;
     taskFilter := if negb (String.eqb task (taskFilter st)) then task else taskFilter st;
     queueFilter := if negb (String.eqb queue (queueFilter st)) then queue else queueFilter st;
     currentPage := if negb (pageIdx =? currentPage st) then pageIdx else currentPage st |}.

(** [handleFilterChange(filterType, value)]; there is no branch for
    ['queue']. *)
Definition handleFilterChange (filterType value : string) (st : State) : State :=
  let st := {| searchTerm := searchTerm st; statusFilter := statusFilter st;
               taskFilter := taskFilter st; queueFilter := queueFilter st;
               currentPage := 0 |} in
  let st := if String.eqb filterType "status"
            then {| searchTerm := searchTerm st; statusFilter := value;
                    taskFilter := taskFilter st; queueFilter := queueFilter st;
                    currentPage := currentPage st |} else st in
  let st := if String.eqb filterType "task"
            then {| searchTerm := searchTerm st; statusFilter := statusFilter st;
                    taskFilter := value; queueFilter := queueFilter st;
                    currentPage := currentPage st |} else st in
  if String.eqb filterType "search"
  then {| searchTerm := value; statusFilter := statusFilter st;
          taskFilter := taskFilter st; queueFilter := queueFilter st;
          currentPage := currentPage st |} else st.

(** The states of the view on a page number in the safe integer range.
    The three drop-down values are never empty in any state (they come
    from [... || 'all'] or from an [<option>], whose values are ['all'],
    a status literal, or a name kept by [.filter(Boolean)]); the page
    index is a non-negative integer below [Number.MAX_SAFE_INTEGER],
    which an address with a longer page number can exceed. *)
Definition wellFormed (st : State) : Prop :=
  statusFilter st <> "" /\ taskFilter st <> "" /\ queueFilter st <> "" /\
  0 <= currentPage st < Js.MAX_SAFE_INTEGER.

(** [buildFilter()], over the three cells it reads. *)
Definition buildFilter (statusFilter taskFilter queueFilter : string) : option JobFilter :=
  let filter := empty in
  let filter :=
    if negb (String.eqb taskFilter "all")
    then set_field "taskIdentifier" (equalTo (VStr taskFilter)) filter else filter in
  let filter :=
    if negb (String.eqb queueFilter "all")
    then set_field "queueName" (equalTo (VStr queueFilter)) filter else filter in
  let filter :=
    if String.eqb statusFilter "running" then
      set_field "lockedAt" (isNull false) filter
    else if String.eqb statusFilter "failed" then
      set_and [ Filter [("lastError", isNull false)] None;
                Filter [("lockedAt", isNull true)] None ] filter
    else if String.eqb statusFilter "completed" then
      set_and [ Filter [("attempts", greaterThan (VInt 0))] None;
                Filter [("lastError", isNull true)] None;
                Filter [("lockedAt", isNull true)] None ] filter
    else if String.eqb statusFilter "pending" then
      set_and [ Filter [("lockedAt", isNull true)] None;
                Filter [("attempts", equalTo (VInt 0))] None ] filter
    else filter in
  if keys_length filter >? 0 then Some filter else None.

(** [function getJobStatus(job)]. *)
Definition getJobStatus (job : Job) : string :=
  if Js.truthy (lockedAt job) then "running"
  else if Js.truthy (lastError job) && negb (Js.truthy (lockedAt job)) then "failed"
  else if (attempts job >? 0) && negb (Js.truthy (lastError job))
          && negb (Js.truthy (lockedAt job)) then "completed"
  else "pending".

(** [matchesStatus], [matchesTask] and [matchesQueue] of [filteredJobs]. *)
Definition matchesStatus (statusFilter : string) (job : Job) : bool :=
  String.eqb statusFilter "all" || String.eqb (getJobStatus job) statusFilter.

Definition matchesTask (taskFilter : string) (job : Job) : bool :=
  String.eqb taskFilter "all" || String.eqb (taskIdentifier job) taskFilter.

Definition matchesQueue (queueFilter : string) (job : Job) : bool :=
  String.eqb queueFilter "all"
  || match queueName job with
     | Some qn => String.eqb qn queueFilter
     | None => false
     end.

Definition pollInterval : Z := 5000.

End JobList.

(* ===================================================================== *)
(** ** The pagination controls *)
(* ===================================================================== *)

Module Pagination.

Record Props : Type := mkProps {
  currentPage : Z;
  totalPages : Z;
  totalCount : Z;
  pageSize : Z;
  hasNextPage : bool;
  hasPreviousPage : bool
}.

(** What the user can do with the controls: press one of the four
    buttons, or edit the page-number field so that it holds [value]. *)
Inductive Interaction : Type :=
| First
| Previous
| PageInput (value : string)
| Next
| Last.

(** The [onClick]/[onChange] closures: the argument they pass to
    [onPageChange], or [None] when they do not call it (the typed text
    is [NaN] for [parseInt]). *)
Definition handler (props : Props) (i : Interaction) : option Z :=
  match i with
  | First => Some 0
  | Previous => Some (Z.max 0 (currentPage props - 1))
  | PageInput value =>
      match Js.parseInt (Js.or_else (Some value) "1") with
      | Some p => Some (Z.min (Z.max (Js.toDouble (p - 1)) 0) (totalPages props - 1))
      | None => None
      end
  | Next => Some (Z.min (currentPage props + 1) (totalPages props - 1))
  | Last => Some (totalPages props - 1)
  end.

(** The [disabled] attribute of each control. *)
Definition disabled (props : Props) (i : Interaction) : bool :=
  match i with
  | First => currentPage props =? 0
  | Previous => negb (hasPreviousPage props)
  | PageInput _ => false
  | Next => negb (hasNextPage props)
  | Last => currentPage props >=? totalPages props - 1
  end.

(** A disabled button does not run its closure. *)
Definition interact (props : Props) (i : Interaction) : option Z :=
  if disabled props i then None else handler props i.

(** The "Showing [from] to [to]" range. *)
Definition from (props : Props) : Z :=
  if totalCount props =? 0 then 0 else currentPage props * pageSize props + 1.

Definition to (props : Props) : Z :=
  Z.min ((currentPage props + 1) * pageSize props) (totalCount props).

End Pagination.

(* ===================================================================== *)
(** ** Dashboard statistics *)
(* ===================================================================== *)

(** The object the dashboard cards and the status chart read. *)
Record JobStats : Type := mkJobStats {
  total : Z;
  pending : Z;
  running : Z;
  failed : Z;
  completed : Z
}.

(** [jobs.filter(p).length]. *)
Definition count (p : Job -> bool) (jobs : list Job) : Z :=
  Z.of_nat (List.length (filter p jobs)).

(** The application shell that scans the fetched job rows. *)
Module AppScan.

Definition isPending (job : Job) : bool :=
  negb (Js.truthy (lockedAt job)) && (attempts job <? maxAttempts job).

Definition isRunning (job : Job) : bool := Js.truthy (lockedAt job).

Definition isFailed (job : Job) : bool :=
  Js.truthy (lastError job) && negb (Js.truthy (lockedAt job)).

Definition isCompleted (job : Job) : bool :=
  (attempts job >? 0) && negb (Js.truthy (lastError job))
  && negb (Js.truthy (lockedAt job)).

(** [const jobStats = { total: jobs.length, pending: ..., ... }]. *)
Definition jobStats (jobs : list Job) : JobStats :=
  {| total := Z.of_nat (List.length jobs);
     pending := count isPending jobs;
     running := count isRunning jobs;
     failed := count isFailed jobs;
     completed := count isCompleted jobs |}.

(** The number of the four counts a job row adds to. *)
Definition buckets (job : Job) : Z :=
  Z.b2z (isPending job) + Z.b2z (isRunning job)
  + Z.b2z (isFailed job) + Z.b2z (isCompleted job).

Definition pollInterval : Z := 5000.

End AppScan.

(** The dashboard component and its own fallback statistics. *)
Module Dashboard.

Definition isPending (job : Job) : bool :=
  negb (Js.truthy (lockedAt job)) && (attempts job <? maxAttempts job).

Definition isRunning (job : Job) : bool := Js.truthy (lockedAt job).

Definition isFailed (job : Job) : bool :=
  (attempts job >=? maxAttempts job) && Js.truthy (lastError job).

Definition isCompleted (job : Job) : bool :=
  (attempts job >? 0) && negb (Js.truthy (lastError job))
  && negb (Js.truthy (lockedAt job)).

(** The number of the four fallback counts a job row adds to. *)
Definition buckets (job : Job) : Z :=
  Z.b2z (isPending job) + Z.b2z (isRunning job)
  + Z.b2z (isFailed job) + Z.b2z (isCompleted job).

(** [const stats = jobStats || { total: jobs.length, ... }]. *)
Definition stats (jobStats : option JobStats) (jobs : list Job) : JobStats :=
  match jobStats with
  | Some s => s
  | None =>
      {| total := Z.of_nat (List.length jobs);
         pending := count isPending jobs;
         running := count isRunning jobs;
         failed := count isFailed jobs;
         completed := count isCompleted jobs |}
  end.

End Dashboard.

(** The application shell that reads the server-side aggregate counts. *)
Module App.

(** The [totalCount] of the four aliased connections of
    [GET_DASHBOARD_DATA_QUERY]; [None] when the response lacks it. *)
Record DashboardData : Type := mkDashboardData {
  total_totalCount : option Z;
  running_totalCount : option Z;
  failed_totalCount : option Z;
  completed_totalCount : option Z
}.

Record Counts : Type := mkCounts {
  c_total : Z;
  c_running : Z;
  c_failed : Z;
  c_completed : Z
}.

(** [const counts = { total: data?.total?.totalCount ?? 0, ... }]. *)
Definition counts (data : DashboardData) : Counts :=
  {| c_total := Js.nullish (total_totalCount data) 0;
     c_running := Js.nullish (running_totalCount data) 0;
     c_failed := Js.nullish (failed_totalCount data) 0;
     c_completed := Js.nullish (completed_totalCount data) 0 |}.

(** [const jobStats = { ...counts, pending: Math.max(0, ...) }]. *)
Definition jobStats (data : DashboardData) : JobStats :=
  let counts := counts data in
  {| total := c_total counts;
     running := c_running counts;
     failed := c_failed counts;
     completed := c_completed counts;
     pending := Z.max 0 (Js.num_or_zero (c_total counts)
                         - Js.num_or_zero (c_running counts)
                         - Js.num_or_zero (c_failed counts)
                         - Js.num_or_zero (c_completed counts)) |}.

Definition pollInterval : Z := 30000.

End App.

(** Every polling interval configured in the client, in milliseconds,
    with the view that configures it. *)
Definition pollIntervals : list (string * Z) :=
  [ ("dashboard (aggregate counts)", App.pollInterval);
    ("dashboard (job scan)", AppScan.pollInterval);
    ("job list", JobList.pollInterval);
    ("queues", Queues.pollInterval);
    ("job detail panel", JobDetails.pollInterval);
    ("job page", JobPage.pollInterval) ].

(* ===================================================================== *)
(** ** The job management mutations of the API server *)
(* ===================================================================== *)

Module Server.

#[local] Open Scope monad_scope.

(** The values bound to the placeholders of a statement: a text, or an
    array of texts (the job identifier arrives as a GraphQL [String]). *)
Inductive Param : Type :=
| PText (s : string)
| PArray (l : list string).

(** One [pgClient.query(text, values)] call. *)
Definition Call : Type := (string * list Param)%type.

Section Resolvers.

(** Whatever a rejected query promise carries. *)
Variable Error : Type.

(** The rows of a fulfilled query. *)
Variable Rows : Type.

(** The database behind [pgClient]: given the calls made so far, a
    statement and its values, the query is fulfilled or rejected. *)
Variable pg : list Call -> string -> list Param -> Error + Rows.

(** What a resolver can change: the statements sent to the database and
    the lines written with [console.error]. *)
Record World : Type := mkWorld {
  calls : list Call;
  console : list (string * Error)
}.

(** Computations that read and write the world and may throw; the world
    survives a throw. *)
Definition M : Type -> Type := eitherT Error (state World).

(** [await pgClient.query(text, values)]. *)
Definition query (text : string) (values : list Param) : M Rows :=
  w <- get ;;
  put {| calls := calls w ++ [(text, values)]; console := console w |} ;;
  match pg (calls w) text values with
  | inl error => raise error
  | inr rows => ret rows
  end.

(** [console.error(message, error)]. *)
Definition console_error (message : string) (error : Error) : M unit :=
  w <- get ;;
  put {| calls := calls w; console := console w ++ [(message, error)] |}.

(** The [resolve] function of [retryJob]. *)
Definition retryJob (jobId : string) : M bool :=
  catch
    (query "SELECT graphile_worker.reschedule_jobs($1::bigint[], NOW())"
           [PArray [jobId]] ;;
     ret true)
    (fun error => console_error "Error retrying job:" error ;; ret false).

(** The [resolve] function of [cancelJob]. *)
Definition cancelJob (jobId : string) : M bool :=
  catch
    (query "SELECT graphile_worker.permanently_fail_jobs($1::bigint[], $2)"
           [PArray [jobId]; PText "Cancelled by user"] ;;
     ret true)
    (fun error => console_error "Error cancelling job:" error ;; ret false).

(** The [resolve] function of [completeJob]. *)
Definition completeJob (jobId : string) : M bool :=
  catch
    (query "SELECT graphile_worker.complete_jobs($1::bigint[])"
           [PArray [jobId]] ;;
     ret true)
    (fun error => console_error "Error completing job:" error ;; ret false).

(** Running a resolver: what the GraphQL layer receives ([inl] a thrown
    error, [inr] the returned value) and the world afterwards. *)
Definition run {A : Type} (c : M A) (w : World) : (Error + A) * World :=
  runState (unEitherT c) w.

End Resolvers.

Arguments calls {Error} _.
Arguments console {Error} _.
Arguments mkWorld {Error} _ _.
Arguments retryJob {Error Rows} pg jobId.
Arguments cancelJob {Error Rows} pg jobId.
Arguments completeJob {Error Rows} pg jobId.
Arguments run {Error A} c w.

(** The three mutations the plugin adds to the root mutation type. *)
Inductive Mutation : Type := RetryJob | CancelJob | CompleteJob.

Definition statement (m : Mutation) : string :=
  match m with
  | RetryJob => "SELECT graphile_worker.reschedule_jobs($1::bigint[], NOW())"
  | CancelJob => "SELECT graphile_worker.permanently_fail_jobs($1::bigint[], $2)"
  | CompleteJob => "SELECT graphile_worker.complete_jobs($1::bigint[])"
  end.

Definition values (m : Mutation) (jobId : string) : list Param :=
  match m with
  | CancelJob => [PArray [jobId]; PText "Cancelled by user"]
  | _ => [PArray [jobId]]
  end.

Definition logLine (m : Mutation) : string :=
  match m with
  | RetryJob => "Error retrying job:"
  | CancelJob => "Error cancelling job:"
  | CompleteJob => "Error completing job:"
  end.

Definition resolve {Error Rows : Type}
  (pg : list Call -> string -> list Param -> Error + Rows)
  (m : Mutation) : string -> M Error bool :=
  match m with
  | RetryJob => retryJob pg
  | CancelJob => cancelJob pg
  | CompleteJob => completeJob pg
  end.

End Server.

(* ===================================================================== *)
(** ** Sample rows and responses *)
(* ===================================================================== *)

Module Samples.

(** A job whose first attempt threw ["boom"]: unlocked, with 24 attempts
    left of the default 25. *)
Definition retrying : Job :=
  {| id := "7"; queueName := None; taskIdentifier := "send_email"; key := None;
     attempts := 1; maxAttempts := 25;
     lastError := Some "boom"; lockedAt := None |}.

(** A job whose error text is the empty string. *)
Definition silent : Job :=
  {| id := "8"; queueName := None; taskIdentifier := "send_email"; key := None;
     attempts := 25; maxAttempts := 25;
     lastError := Some ""; lockedAt := None |}.

(** A job that carries an error although its attempt counter was reset. *)
Definition reset : Job :=
  {| id := "9"; queueName := None; taskIdentifier := "send_email"; key := None;
     attempts := 0; maxAttempts := 25;
     lastError := Some "boom"; lockedAt := None |}.

(** An unlocked job with one attempt and no error. *)
Definition succeeded : Job :=
  {| id := "10"; queueName := None; taskIdentifier := "send_email"; key := None;
     attempts := 1; maxAttempts := 25;
     lastError := None; lockedAt := None |}.

(** A job out of attempts, failed for good. *)
Definition dead : Job :=
  {| id := "11"; queueName := Some "mail"; taskIdentifier := "send_email"; key := None;
     attempts := 25; maxAttempts := 25;
     lastError := Some "boom"; lockedAt := None |}.

(** A job locked for its last attempt, still carrying the error of the
    attempt before. *)
Definition lastAttempt : Job :=
  {| id := "12"; queueName := Some "mail"; taskIdentifier := "send_email"; key := None;
     attempts := 25; maxAttempts := 25;
     lastError := Some "boom"; lockedAt := Some "2024-05-01T10:00:00Z" |}.

(** A response in which one job is counted as running although the
    total, counted a moment earlier, is still zero. *)
Definition racing : App.DashboardData :=
  {| App.total_totalCount := Some 0;
     App.running_totalCount := Some 1;
     App.failed_totalCount := Some 0;
     App.completed_totalCount := Some 0 |}.

(** A response of four jobs, one of them running and one failed. *)
Definition steady : App.DashboardData :=
  {| App.total_totalCount := Some 4;
     App.running_totalCount := Some 1;
     App.failed_totalCount := Some 1;
     App.completed_totalCount := Some 0 |}.

(** The job list on its fourth page, filtered on a search text, a status
    and a queue. *)
Definition filtered : JobList.State :=
  {| JobList.searchTerm := "send mail";
     JobList.statusFilter := "failed";
     JobList.taskFilter := "all";
     JobList.queueFilter := "mail";
     JobList.currentPage := 3 |}.

(** The job list with an empty status cell. *)
Definition blankStatus : JobList.State :=
  {| JobList.searchTerm := "";
     JobList.statusFilter := "";
     JobList.taskFilter := "all";
     JobList.queueFilter := "all";
     JobList.currentPage := 0 |}.

(** The job list opened at a page number of twenty-two digits. *)
Definition astronomical : JobList.State :=
  JobList.initialState [("page", "1000000000000000000000")].

(** The pagination controls on the third of five pages. *)
Definition thirdOfFive : Pagination.Props :=
  {| Pagination.currentPage := 2; Pagination.totalPages := 5;
     Pagination.totalCount := 120; Pagination.pageSize := 25;
     Pagination.hasNextPage := true; Pagination.hasPreviousPage := true |}.

End Samples.

(* ===================================================================== *)
(** ** The job list: query variables, rows shown, row actions *)
(* ===================================================================== *)

(** [String.prototype.includes]: [search] occurs in [s] as a substring. *)
Fixpoint includes (s search : string) : bool :=
  String.prefix search s
  || match s with
     | String _ r => includes r search
     | EmptyString => false
     end.

(** The administrative actions a row or the detail panel can offer. *)
Inductive Action : Type := Retry | Cancel | Complete.

(** The three conditional buttons, in the order they are rendered:
    [status === 'failed' && ...], [(status === 'pending' || status ===
    'running') && ...], [status === 'pending' && ...]. *)
Definition actionsFor (status : string) : list Action :=
  ((if String.eqb status "failed" then [Retry] else [])
   ++ (if String.eqb status "pending" || String.eqb status "running"
       then [Cancel] else [])
   ++ (if String.eqb status "pending" then [Complete] else []))%list.

(** One entry of [groupedAggregates]: its [keys] array, when it is one,
    and the numeric value of [distinctCount.id], when present. *)
Record Group : Type := mkGroup {
  keys : option (list (option string));
  distinctCount_id : option Z
}.

Module JobListView.

(** [const [pageSize] = useState(25)]. *)
Definition pageSize : Z := 25.

(** [Math.ceil(totalCount / pageSize)]. *)
Definition totalPages (totalCount : Z) : Z := - ((- totalCount) / pageSize).

(** The [variables] of the paginated jobs query. *)
Record Variables : Type := mkVariables {
  first : Z;
  offset : Z;
  orderBy : list string;
  filter_ : option ConnectionFilter.JobFilter
}.

Definition variables (st : JobList.State) : Variables :=
  {| first := pageSize;
     offset := JobList.currentPage st * pageSize;
     orderBy := ["CREATED_AT_DESC"];
     filter_ := JobList.buildFilter (JobList.statusFilter st) (JobList.taskFilter st)
                  (JobList.queueFilter st) |}.

(** The props the list hands to the pagination controls, which it
    renders only when [totalPages > 1]. *)
Definition paginationProps (st : JobList.State) (totalCount : Z)
  (hasNextPage hasPreviousPage : bool) : option Pagination.Props :=
  if totalPages totalCount >? 1 then
    Some {| Pagination.currentPage := JobList.currentPage st;
            Pagination.totalPages := totalPages totalCount;
            Pagination.totalCount := totalCount;
            Pagination.pageSize := pageSize;
            Pagination.hasNextPage := hasNextPage;
            Pagination.hasPreviousPage := hasPreviousPage |}
  else None.

(** The buttons of a row. *)
Definition rowActions (job : Job) : list Action :=
  actionsFor (JobList.getJobStatus job).

(** The values of the status drop-down. *)
Definition statusOptions : list string :=
  ["all"; "pending"; "running"; "failed"; "completed"].

Section Builtins.

(** [String.prototype.toLowerCase]. *)
Variable toLowerCase : string -> string.

(** [Array.prototype.sort] with the default order of strings. *)
Variable sort : list string -> list string.

(** [matchesSearch] of [filteredJobs]. *)
Definition matchesSearch (searchTerm : string) (job : Job) : bool :=
  let ti := Js.or_else (Some (taskIdentifier job)) "" in
  String.eqb searchTerm ""
  || includes (toLowerCase ti) (toLowerCase searchTerm)
  || match queueName job with
     | Some qn => includes (toLowerCase qn) (toLowerCase searchTerm)
     | None => false
     end
  || match key job with
     | Some k => includes (toLowerCase k) (toLowerCase searchTerm)
     | None => false
     end.

(** [const filteredJobs = jobs.filter(job => ...)]. *)
Definition filteredJobs (st : JobList.State) (jobs : list Job) : list Job :=
  filter (fun job =>
            matchesSearch (JobList.searchTerm st) job
            && JobList.matchesStatus (JobList.statusFilter st) job
            && JobList.matchesTask (JobList.taskFilter st) job
            && JobList.matchesQueue (JobList.queueFilter st) job) jobs.

(** [Array.isArray(g?.keys) ? g.keys[0] : null]. *)
Definition firstKey (g : Group) : option string :=
  match keys g with
  | Some (k :: _) => k
  | _ => None
  end.

(** [groups.map(...).filter(Boolean).sort()]: the names offered by the
    task drop-down and, from the other aggregate, by the queue one. *)
Definition uniqueNames (groups : list Group) : list string :=
  sort (flat_map (fun g => match firstKey g with
                           | Some s => if Js.truthy (Some s) then [s] else []
                           | None => []
                           end) groups).

(** The [<option>] values of a name drop-down. *)
Definition nameOptions (groups : list Group) : list string :=
  "all" :: uniqueNames groups.

End Builtins.

End JobListView.

(** The pagination props once [onPageChange(p)] has run the list's
    [setCurrentPage(p)]. *)
Definition withPage (props : Pagination.Props) (p : Z) : Pagination.Props :=
  {| Pagination.currentPage := p;
     Pagination.totalPages := Pagination.totalPages props;
     Pagination.totalCount := Pagination.totalCount props;
     Pagination.pageSize := Pagination.pageSize props;
     Pagination.hasNextPage := Pagination.hasNextPage props;
     Pagination.hasPreviousPage := Pagination.hasPreviousPage props |}.

(** The number of [jobs] the job list shows with the status [s]. *)
Definition shown (s : string) (jobs : list Job) : Z :=
  count (fun j => String.eqb (JobList.getJobStatus j) s) jobs.

(** The detail panel's buttons. *)
Definition panelActions (job : Job) : list Action :=
  actionsFor (JobDetails.getJobStatus job).

(* ===================================================================== *)
(** ** The earlier job list and its page buttons *)
(* ===================================================================== *)

Module JobListLegacy.

(** The indices [0 .. n-1] of [Array.from({ length: n }, (_, i) => ...)]. *)
Definition indices (n : Z) : list Z := map Z.of_nat (seq 0 (Z.to_nat n)).

(** The page indices of the numbered buttons. *)
Definition pageNumbers (totalPages currentPage : Z) : list Z :=
  map (fun i => Z.max 0 (Z.min (totalPages - 5) (currentPage - 2)) + i)
      (indices (Z.min 5 totalPages)).

(** The closures of the Previous and Next buttons. *)
Definition previous (currentPage : Z) : Z := Z.max 0 (currentPage - 1).

Definition next (totalPages currentPage : Z) : Z :=
  Z.min (totalPages - 1) (currentPage + 1).

End JobListLegacy.

(* ===================================================================== *)
(** ** Charts and the queues view *)
(* ===================================================================== *)

(** A bar of the task chart, a row of the queues view. *)
Record ChartItem : Type := mkChartItem {
  name : string;
  total_ : Z
}.

(** [{ name: String((g.keys && g.keys[0]) ?? dflt),
       total: Number(g.distinctCount?.id ?? 0) }]. *)
Definition chartItem (dflt : string) (g : Group) : ChartItem :=
  {| name := match keys g with
             | Some (Some s :: _) => s
             | _ => dflt
             end;
     total_ := Js.nullish (distinctCount_id g) 0 |}.

(** [items.sort((a, b) => b.total - a.total)]: the stable sort by
    decreasing total, here by insertion from the right. *)
Fixpoint insertDesc (x : ChartItem) (l : list ChartItem) : list ChartItem :=
  match l with
  | [] => [x]
  | y :: r => if total_ y - total_ x <=? 0 then x :: y :: r else y :: insertDesc x r
  end.

Fixpoint sortDesc (l : list ChartItem) : list ChartItem :=
  match l with
  | [] => []
  | x :: r => insertDesc x (sortDesc r)
  end.

(** [a] is listed before [b]: its total is not the smaller one. *)
Definition before (a b : ChartItem) : Prop := total_ b <= total_ a.

(** [taskChartData] of the application shell: the eight largest tasks. *)
Definition taskChartData (groups : list Group) : list ChartItem :=
  firstn 8 (sortDesc (map (chartItem "Unknown") groups)).

(** [queues] of the queues view. *)
Definition queues (groups : list Group) : list ChartItem :=
  sortDesc (map (chartItem "default") groups).


(** A slice of the status pie chart. *)
Record Slice : Type := mkSlice {
  label : string;
  value : Z;
  color : string
}.

(** [statusData] of the dashboard: the four counts, without the ones
    that are not positive. *)
Definition statusData (stats : JobStats) : list Slice :=
  filter (fun item => value item >? 0)
    [ {| label := "Pending"; value := pending stats; color := "#F59E0B" |};
      {| label := "Running"; value := running stats; color := "#10B981" |};
      {| label := "Completed"; value := completed stats; color := "#3B82F6" |};
      {| label := "Failed"; value := failed stats; color := "#EF4444" |} ].

(* ===================================================================== *)
(** ** The filters of the dashboard query *)
(* ===================================================================== *)

Module DashboardQuery.

Import ConnectionFilter.

(** [running: allJobs(filter: { lockedAt: { isNull: false } })]. *)
Definition runningFilter : JobFilter :=
  Filter [("lockedAt", isNull false)] None.

(** [failed: allJobs(filter: { lastError: { isNull: false },
    lockedAt: { isNull: true } })]. *)
Definition failedFilter : JobFilter :=
  Filter [("lastError", isNull false); ("lockedAt", isNull true)] None.

(** [completed: allJobs(filter: { attempts: { greaterThan: 0 },
    lastError: { isNull: true }, lockedAt: { isNull: true } })]. *)
Definition completedFilter : JobFilter :=
  Filter [("attempts", greaterThan (VInt 0)); ("lastError", isNull true);
          ("lockedAt", isNull true)] None.

(** The response carries the exact [totalCount] of each aliased
    connection over the job rows [jobs]. *)
Definition exact (jobs : list Job) (data : App.DashboardData) : Prop :=
  App.total_totalCount data = Some (Z.of_nat (List.length jobs)) /\
  App.running_totalCount data = Some (count (fun j => satisfies j runningFilter) jobs) /\
  App.failed_totalCount data = Some (count (fun j => satisfies j failedFilter) jobs) /\
  App.completed_totalCount data = Some (count (fun j => satisfies j completedFilter) jobs).

End DashboardQuery.

(* ===================================================================== *)
(** ** The action handlers of the job list *)
(* ===================================================================== *)

Module Client.

#[local] Open Scope monad_scope.

Inductive Toast : Type :=
| toast_success (message : string)
| toast_error (message : string).

(** What a handler can do: stop the click from reaching the row, ask
    for confirmation, send a mutation, show a toast, refetch the list. *)
Record World : Type := mkWorld {
  stopped : bool;
  prompts : list string;
  sent : list (Action * string);
  toasts : list Toast;
  refetches : Z
}.

Section Handlers.

(** The user's answer to [confirm(message)]. *)
Variable confirm : string -> bool.

(** The mutation promise: rejected with an error of the given
    [message], or fulfilled with the value of the mutation field. *)
Variable mutate : Action -> string -> string + option bool.

Definition M : Type -> Type := eitherT string (state World).

Definition stopPropagation : M unit :=
  w <- get ;;
  put {| stopped := true; prompts := prompts w; sent := sent w;
         toasts := toasts w; refetches := refetches w |}.

Definition ask (message : string) : M bool :=
  w <- get ;;
  put {| stopped := stopped w; prompts := prompts w ++ [message]; sent := sent w;
         toasts := toasts w; refetches := refetches w |} ;;
  ret (confirm message).

Definition send (a : Action) (jobId : string) : M (option bool) :=
  w <- get ;;
  put {| stopped := stopped w; prompts := prompts w; sent := sent w ++ [(a, jobId)];
         toasts := toasts w; refetches := refetches w |} ;;
  match mutate a jobId with
  | inl message => raise message
  | inr data => ret data
  end.

Definition toast (t : Toast) : M unit :=
  w <- get ;;
  put {| stopped := stopped w; prompts := prompts w; sent := sent w;
         toasts := toasts w ++ [t]; refetches := refetches w |}.

Definition refetch : M unit :=
  w <- get ;;
  put {| stopped := stopped w; prompts := prompts w; sent := sent w;
         toasts := toasts w; refetches := refetches w + 1 |}.

(** [handleRetryJob(jobId, e)]. *)
Definition handleRetryJob (jobId : string) : M unit :=
  stopPropagation ;;
  catch
    (send Retry jobId ;;
     toast (toast_success "Job retry scheduled") ;;
     refetch)
    (fun message => toast (toast_error ("Failed to retry job: " ++ message))).

(** [handleCancelJob(jobId, e)]. *)
Definition handleCancelJob (jobId : string) : M unit :=
  stopPropagation ;;
  ok <- ask "Are you sure you want to cancel this job?" ;;
  if negb ok then ret tt
  else
    catch
      (send Cancel jobId ;;
       toast (toast_success "Job cancelled") ;;
       refetch)
      (fun message => toast (toast_error ("Failed to cancel job: " ++ message))).

(** [handleCompleteJob(jobId, e)]. *)
Definition handleCompleteJob (jobId : string) : M unit :=
  stopPropagation ;;
  ok <- ask "Are you sure you want to mark this job as complete?" ;;
  if negb ok then ret tt
  else
    catch
      (send Complete jobId ;;
       toast (toast_success "Job marked as complete") ;;
       refetch)
      (fun message => toast (toast_error ("Failed to complete job: " ++ message))).

(** The [onClick] of the button rendered for an action. *)
Definition handle (a : Action) : string -> M unit :=
  match a with
  | Retry => handleRetryJob
  | Cancel => handleCancelJob
  | Complete => handleCompleteJob
  end.

Definition run {A : Type} (c : M A) (w : World) : (string + A) * World :=
  runState (unEitherT c) w.

End Handlers.

(** The toast of a fulfilled and of a rejected mutation. *)
Definition successMessage (a : Action) : string :=
  match a with
  | Retry => "Job retry scheduled"
  | Cancel => "Job cancelled"
  | Complete => "Job marked as complete"
  end.

Definition failurePrefix (a : Action) : string :=
  match a with
  | Retry => "Failed to retry job: "
  | Cancel => "Failed to cancel job: "
  | Complete => "Failed to complete job: "
  end.

(** The confirmation an action asks for, if any. *)
Definition prompt (a : Action) : option string :=
  match a with
  | Retry => None
  | Cancel => Some "Are you sure you want to cancel this job?"
  | Complete => Some "Are you sure you want to mark this job as complete?"
  end.

(** The mutation field an action button invokes. *)
Definition mutation (a : Action) : Server.Mutation :=
  match a with
  | Retry => Server.RetryJob
  | Cancel => Server.CancelJob
  | Complete => Server.CompleteJob
  end.

End Client.

(* ===================================================================== *)
(** ** Several mutation fields in one request *)
(* ===================================================================== *)

(** The mutation fields of one GraphQL request are resolved one after
    the other, in the order they are written. *)
Fixpoint resolveAll {Error Rows : Type}
  (pg : list Server.Call -> string -> list Server.Param -> Error + Rows)
  (fields : list (Server.Mutation * string)) : Server.M Error (list bool) :=
  match fields with
  | [] => ret []
  | (m, jobId) :: rest =>
      bind (Server.resolve pg m jobId) (fun b =>
      bind (resolveAll pg rest) (fun bs => ret (b :: bs)))
  end.

(** An address whose page number of twenty-two digits follows a
    no-break space (U+00A0, the bytes 194 and 160). *)
Definition paddedAddress : URLSearchParams.t :=
  [("page", String (ascii_of_nat 194) (String (ascii_of_nat 160) "1000000000000000000000"))].

(* ===================================================================== *)
(** ** Properties of the derived status *)
(* ===================================================================== *)

Lemma truthy_Some (s : string) : s <> "" -> Js.truthy (Some s) = true.
Proof.
  intros Hs. unfold Js.truthy.
  destruct (String.eqb_spec s ""); [contradiction | reflexivity].
Qed.

Lemma truthy_present (v : option string) :
  v <> Some "" -> Js.truthy v = match v with Some _ => true | None => false end.
Proof.
  destruct v as [s|]; intros Hv; [|reflexivity].
  apply truthy_Some. congruence.
Qed.

Lemma truthy_true_inv (v : option string) :
  Js.truthy v = true -> exists s, v = Some s /\ s <> "".
Proof.
  destruct v as [s|]; simpl; [|discriminate].
  destruct (String.eqb_spec s ""); [discriminate|].
  intros _. now exists s.
Qed.

(** C1, as stated, fails: the detail panel derives ['pending'] for an
    unlocked job with an error and attempts left; and every view treats
    an empty error text as no error. *)
Lemma C1_counterexample :
  (lastError Samples.retrying <> None /\ lockedAt Samples.retrying = None /\
   JobDetails.getJobStatus Samples.retrying = "pending") /\
  (lastError Samples.silent <> None /\ lockedAt Samples.silent = None /\
   JobList.getJobStatus Samples.silent = "completed").
Proof.
  repeat split; try reflexivity; discriminate.
Qed.

(** C1 (amended): for a job with a non-empty last-error and no lock, the
    job list and the job page derive ['failed'] whatever the attempt
    counters are; the detail panel derives ['failed'] exactly when the
    attempts have reached the maximum, and ['pending'] otherwise. *)
Theorem C1_failed_when_error_and_unlocked (j : Job) (e : string) :
  lastError j = Some e -> e <> "" -> lockedAt j = None ->
  JobList.getJobStatus j = "failed" /\
  JobPage.status j = "failed" /\
  JobDetails.getJobStatus j =
    (if attempts j >=? maxAttempts j then "failed" else "pending").
Proof.
  intros He Hne Hl.
  unfold JobList.getJobStatus, JobPage.status, JobDetails.getJobStatus.
  rewrite He, Hl, (truthy_Some e Hne). cbn [Js.truthy andb negb].
  repeat split.
  destruct (attempts j >=? maxAttempts j); cbn [andb]; [reflexivity|].
  now rewrite andb_false_r.
Qed.

Lemma C1_failed_when_error_and_unlocked_witness :
  JobList.getJobStatus Samples.dead = "failed" /\
  JobPage.status Samples.dead = "failed" /\
  JobDetails.getJobStatus Samples.dead =
    (if attempts Samples.dead >=? maxAttempts Samples.dead
     then "failed" else "pending").
Proof.
  apply (C1_failed_when_error_and_unlocked Samples.dead "boom").
  - reflexivity.
  - discriminate.
  - reflexivity.
Defined.

(* ===================================================================== *)
(** ** Server-side status filters against the client-side status *)
(* ===================================================================== *)

Section FilterAgreement.

Import ConnectionFilter.

Variable j : Job.

(** Evaluates a filter built for a literal status on the row [j]. *)
Ltac eval_filter :=
  unfold JobList.buildFilter, JobList.matchesTask, JobList.matchesQueue;
  generalize j; intros [i qn ti k [|n|n] m [e|] [l|]];
  match goal with
  | |- context [String.eqb ?t "all" || String.eqb _ ?t] =>
      destruct (String.eqb t "all"); [|destruct (String.eqb ti t)]
  end;
  match goal with
  | |- context [String.eqb ?q "all" || _] =>
      destruct (String.eqb q "all"); [|destruct qn as [qn|]]
  end;
  cbn; rewrite ?andb_true_r, ?andb_false_r; reflexivity.

Lemma selects_running (t q : string) :
  selects (JobList.buildFilter "running" t q) j =
  present (lockedAt j) && (JobList.matchesTask t j && JobList.matchesQueue q j).
Proof. eval_filter. Qed.

Lemma selects_failed (t q : string) :
  selects (JobList.buildFilter "failed" t q) j =
  present (lastError j) && negb (present (lockedAt j))
  && (JobList.matchesTask t j && JobList.matchesQueue q j).
Proof. eval_filter. Qed.

Lemma selects_completed (t q : string) :
  selects (JobList.buildFilter "completed" t q) j =
  (attempts j >? 0) && negb (present (lastError j)) && negb (present (lockedAt j))
  && (JobList.matchesTask t j && JobList.matchesQueue q j).
Proof. eval_filter. Qed.

Lemma selects_pending (t q : string) :
  selects (JobList.buildFilter "pending" t q) j =
  negb (present (lockedAt j)) && (attempts j =? 0)
  && (JobList.matchesTask t j && JobList.matchesQueue q j).
Proof. eval_filter. Qed.

Hypothesis Hj : consistent j.

Lemma consistent_lockedAt : Js.truthy (lockedAt j) = present (lockedAt j).
Proof. apply truthy_present, Hj. Qed.

Lemma consistent_lastError : Js.truthy (lastError j) = present (lastError j).
Proof. apply truthy_present, Hj. Qed.

(** The client-side status of a consistent row, by its three fields. *)
Lemma getJobStatus_cases :
  JobList.getJobStatus j =
  if present (lockedAt j) then "running"
  else if present (lastError j) then "failed"
  else if attempts j >? 0 then "completed" else "pending".
Proof.
  unfold JobList.getJobStatus.
  rewrite consistent_lockedAt, consistent_lastError.
  destruct (present (lockedAt j)), (present (lastError j)), (attempts j >? 0);
    reflexivity.
Qed.

End FilterAgreement.

(** C2, as stated, fails for ['pending']: the server's filter for it
    ("never started and not locked") selects an unlocked row with an
    error and no attempts, which the client classifies as ['failed']. *)
Lemma C2_counterexample :
  In "pending" statuses /\ consistent Samples.reset /\
  ConnectionFilter.selects (JobList.buildFilter "pending" "all" "all") Samples.reset = true /\
  JobList.getJobStatus Samples.reset = "failed" /\
  JobList.getJobStatus Samples.reset <> "pending".
Proof.
  unfold consistent.
  repeat split; try reflexivity; try (cbn; lia); try discriminate.
  simpl. auto.
Qed.

(** C2 (amended): on a consistent job row, and next to the task and queue
    conditions, the filter [buildFilter] constructs for ['running'],
    ['failed'] or ['completed'] selects the row iff the client-side
    status is that literal; the filter for ['pending'] selects it iff the
    client-side status is ['pending'], or is ['failed'] with no attempt
    made. *)
Theorem C2_status_filter_agreement (j : Job) (t q : string) :
  consistent j ->
  (forall s, In s ["running"; "failed"; "completed"] ->
     ConnectionFilter.selects (JobList.buildFilter s t q) j = true <->
     JobList.getJobStatus j = s /\
     JobList.matchesTask t j = true /\ JobList.matchesQueue q j = true) /\
  (ConnectionFilter.selects (JobList.buildFilter "pending" t q) j = true <->
     (JobList.getJobStatus j = "pending" \/
      JobList.getJobStatus j = "failed" /\ attempts j = 0) /\
     JobList.matchesTask t j = true /\ JobList.matchesQueue q j = true).
Proof.
  intros Hj.
  assert (Ha : 0 <= attempts j) by apply Hj.
  split.
  - intros s [<- | [<- | [<- | []]]];
      rewrite ?selects_running, ?selects_failed, ?selects_completed,
        (getJobStatus_cases j Hj);
      destruct (ConnectionFilter.present (lockedAt j)),
        (ConnectionFilter.present (lastError j)),
        (Z.gtb_spec (attempts j) 0),
        (JobList.matchesTask t j), (JobList.matchesQueue q j);
      cbn; split; intros HH; try discriminate; try tauto;
      decompose [and] HH; discriminate.
  - rewrite selects_pending, (getJobStatus_cases j Hj).
    destruct (ConnectionFilter.present (lockedAt j)),
      (ConnectionFilter.present (lastError j)),
      (Z.gtb_spec (attempts j) 0), (Z.eqb_spec (attempts j) 0),
      (JobList.matchesTask t j), (JobList.matchesQueue q j);
      cbn; split; intros HH; try discriminate; try lia; try tauto;
      try (decompose [and or] HH; (discriminate || lia)).
Qed.

Lemma C2_status_filter_agreement_witness :
  (forall s, In s ["running"; "failed"; "completed"] ->
     ConnectionFilter.selects (JobList.buildFilter s "send_email" "mail") Samples.dead = true <->
     JobList.getJobStatus Samples.dead = s /\
     JobList.matchesTask "send_email" Samples.dead = true /\
     JobList.matchesQueue "mail" Samples.dead = true) /\
  (ConnectionFilter.selects (JobList.buildFilter "pending" "send_email" "mail") Samples.dead = true <->
     (JobList.getJobStatus Samples.dead = "pending" \/
      JobList.getJobStatus Samples.dead = "failed" /\ attempts Samples.dead = 0) /\
     JobList.matchesTask "send_email" Samples.dead = true /\
     JobList.matchesQueue "mail" Samples.dead = true).
Proof.
  apply (C2_status_filter_agreement Samples.dead "send_email" "mail").
  unfold consistent; simpl.
  repeat split; (lia || discriminate).
Defined.

(* ===================================================================== *)
(** ** Numbers beyond the safe integers *)
(* ===================================================================== *)

Lemma two53_lt_Infinity : 9007199254740992 < Js.Infinity.
Proof. reflexivity. Qed.

Lemma Infinity_pow : Js.Infinity = 2 ^ 1024.
Proof. reflexivity. Qed.

Lemma toDouble_small (n : Z) : Z.abs n <= 9007199254740992 -> Js.toDouble n = n.
Proof.
  intros H. unfold Js.toDouble.
  destruct (Z.leb_spec (Z.abs n) 9007199254740992); [reflexivity | lia].
Qed.

(** The exponent and the mantissa of a number beyond [2^53]. *)
Lemma mantissa_bounds (a : Z) :
  9007199254740992 < a ->
  let e := Z.log2 a - 52 in
  1 <= e /\ 2 ^ 52 <= a / 2 ^ e < 2 ^ 53 /\ 2 ^ Z.log2 a = 2 ^ 52 * 2 ^ e.
Proof.
  intros Ha e.
  assert (Hl : 53 <= Z.log2 a).
  { change 53 with (Z.log2 9007199254740992). apply Z.log2_le_mono. lia. }
  destruct (Z.log2_spec a ltac:(lia)) as (Hlo & Hhi).
  assert (He : 2 ^ Z.log2 a = 2 ^ 52 * 2 ^ e).
  { rewrite <- Z.pow_add_r by lia. f_equal. lia. }
  assert (Hs : 2 ^ Z.succ (Z.log2 a) = 2 ^ 53 * 2 ^ e).
  { rewrite <- Z.pow_add_r by lia. f_equal. lia. }
  assert (Hp : 0 < 2 ^ e) by (apply Z.pow_pos_nonneg; lia).
  split; [lia|]. split; [|exact He]. split.
  - apply Z.div_le_lower_bound; lia.
  - apply Z.div_lt_upper_bound; lia.
Qed.

(** Beyond [2^53] the stored number is [q * 2^e], with a mantissa [q]
    of 53 bits or [2^53] itself, cut off at [Infinity]. *)
Lemma toDouble_large (n : Z) :
  9007199254740992 < n ->
  exists q e, 1 <= e /\ 2 ^ 52 <= q <= 2 ^ 53 /\
              Js.toDouble n = Z.min (q * 2 ^ e) Js.Infinity /\
              (Js.Infinity <= n -> Js.Infinity <= q * 2 ^ e).
Proof.
  intros Hn. unfold Js.toDouble.
  rewrite (Z.abs_eq n) by lia.
  destruct (Z.leb_spec n 9007199254740992); [lia|].
  destruct (mantissa_bounds n Hn) as (He & Hq & Hl). cbv zeta in *.
  set (e := Z.log2 n - 52) in *. set (q := n / 2 ^ e) in *.
  rewrite (Z.sgn_pos n) by lia. rewrite Z.mul_1_l.
  assert (Hp : 0 < 2 ^ e) by (apply Z.pow_pos_nonneg; lia).
  exists (if (2 * (n mod 2 ^ e) >? 2 ^ e) || ((2 * (n mod 2 ^ e) =? 2 ^ e) && Z.odd q)
          then q + 1 else q), e.
  split; [exact He|]. split; [|split; [reflexivity|]].
  - destruct (_ || _); lia.
  - intros Hinf.
    assert (1024 <= Z.log2 n).
    { change 1024 with (Z.log2 (2 ^ 1024)). apply Z.log2_le_mono.
      rewrite <- Infinity_pow. exact Hinf. }
    assert (Js.Infinity <= 2 ^ Z.log2 n).
    { rewrite Infinity_pow. apply Z.pow_le_mono_r; lia. }
    destruct (_ || _); nia.
Qed.

Lemma toDouble_large_bounds (n : Z) :
  9007199254740992 < n -> 9007199254740992 <= Js.toDouble n <= Js.Infinity.
Proof.
  intros Hn. destruct (toDouble_large n Hn) as (q & e & He & Hq & -> & _).
  pose proof two53_lt_Infinity.
  assert (2 <= 2 ^ e).
  { change 2 with (2 ^ 1) at 1. apply Z.pow_le_mono_r; lia. }
  change (2 ^ 52) with 4503599627370496 in Hq.
  split; [apply Z.min_glb; nia | apply Z.le_min_r].
Qed.

Lemma toDouble_opp (n : Z) : Js.toDouble (- n) = - Js.toDouble n.
Proof.
  unfold Js.toDouble. rewrite Z.abs_opp, Z.sgn_opp.
  destruct (Z.abs n <=? 9007199254740992); [reflexivity | ring].
Qed.

(** From [2^1024] on an integer is stored as [Infinity]. *)
Lemma toDouble_Infinity (n : Z) : Js.Infinity <= n -> Js.toDouble n = Js.Infinity.
Proof.
  intros Hn. pose proof two53_lt_Infinity.
  destruct (toDouble_large n ltac:(lia)) as (q & e & He & Hq & -> & Hi).
  specialize (Hi Hn). lia.
Qed.

(** Storing a number does not change its sign. *)
Lemma toDouble_sign (n : Z) :
  (0 < n -> 0 < Js.toDouble n) /\ (n = 0 -> Js.toDouble n = 0) /\
  (n < 0 -> Js.toDouble n < 0).
Proof.
  assert (Hpos : forall m, 0 < m -> 0 < Js.toDouble m).
  { intros m Hm. destruct (Z.le_gt_cases m 9007199254740992).
    - rewrite toDouble_small; lia.
    - pose proof (toDouble_large_bounds m ltac:(lia)). lia. }
  repeat split.
  - apply Hpos.
  - intros ->. reflexivity.
  - intros Hn. replace n with (- - n) by lia. rewrite toDouble_opp.
    specialize (Hpos (- n) ltac:(lia)). lia.
Qed.

Lemma toDouble_beyond (n : Z) :
  9007199254740992 < Z.abs n -> 9007199254740992 <= Z.abs (Js.toDouble n).
Proof.
  intros Hn. destruct (Z.abs_spec n) as [(Hs & E) | (Hs & E)]; rewrite E in Hn.
  - pose proof (toDouble_large_bounds n Hn). lia.
  - pose proof (toDouble_large_bounds (- n) Hn) as Hb.
    rewrite toDouble_opp in Hb. lia.
Qed.

(** A number below [2^53] in magnitude stores no integer but itself. *)
Lemma toDouble_eq_small (n m : Z) :
  Z.abs m < 9007199254740992 -> Js.toDouble n = m -> n = m.
Proof.
  intros Hm E. destruct (Z.le_gt_cases (Z.abs n) 9007199254740992).
  - rewrite toDouble_small in E by assumption. exact E.
  - pose proof (toDouble_beyond n ltac:(lia)). lia.
Qed.

Lemma mantissa_52 : 2 ^ 52 <= 2 ^ 52 < 2 ^ 53.
Proof. split; [discriminate | reflexivity]. Qed.

(** A 53-bit mantissa with an exponent is stored as it is. *)
Lemma toDouble_exact (q e : Z) :
  0 <= e -> 2 ^ 52 <= q < 2 ^ 53 ->
  Js.toDouble (q * 2 ^ e) = Z.min (q * 2 ^ e) Js.Infinity.
Proof.
  intros He Hq. pose proof two53_lt_Infinity as Hi.
  assert (Hp : 0 < 2 ^ e) by (apply Z.pow_pos_nonneg; lia).
  change (2 ^ 52) with 4503599627370496 in Hq.
  change (2 ^ 53) with 9007199254740992 in Hq.
  set (v := q * 2 ^ e).
  assert (Hv : 0 < v) by (unfold v; nia).
  unfold Js.toDouble. rewrite (Z.abs_eq v) by lia.
  destruct (Z.leb_spec v 9007199254740992); [lia|].
  rewrite (Z.sgn_pos v) by lia. rewrite Z.mul_1_l.
  assert (El : Z.log2 v = 52 + e).
  { apply Z.log2_unique; [lia|]. unfold v.
    rewrite Z.pow_succ_r, !Z.pow_add_r by lia.
    change (2 ^ 52) with 4503599627370496. nia. }
  rewrite El. replace (52 + e - 52) with e by lia.
  assert (Ed : v / 2 ^ e = q) by (unfold v; apply Z.div_mul; lia).
  assert (Er : v mod 2 ^ e = 0) by (unfold v; apply Z.mod_mul; lia).
  rewrite Ed, Er.
  destruct (Z.gtb_spec (2 * 0) (2 ^ e)); [lia|].
  destruct (Z.eqb_spec (2 * 0) (2 ^ e)); [lia|].
  reflexivity.
Qed.

(** A stored number is stored as itself. *)
Lemma toDouble_idempotent (n : Z) : Js.toDouble (Js.toDouble n) = Js.toDouble n.
Proof.
  assert (Hinf : Js.toDouble Js.Infinity = Js.Infinity).
  { change Js.Infinity with (2 ^ 52 * 2 ^ 972) at 1.
    rewrite toDouble_exact; [reflexivity | discriminate | exact mantissa_52]. }
  assert (Hpos : forall m, 9007199254740992 < m ->
                           Js.toDouble (Js.toDouble m) = Js.toDouble m).
  { intros m Hm. destruct (toDouble_large m Hm) as (q & e & He & Hq & E & _).
    rewrite E.
    destruct (Z.min_spec (q * 2 ^ e) Js.Infinity) as [(Hlt & ->) | (Hge & ->)];
      [|exact Hinf].
    destruct (Z.eq_dec q (2 ^ 53)) as [-> | Nq].
    - replace (2 ^ 53 * 2 ^ e) with (2 ^ 52 * 2 ^ (e + 1)) in *.
      + rewrite toDouble_exact; [lia | lia | exact mantissa_52].
      + rewrite (Z.pow_add_r 2 e 1) by lia.
        change (2 ^ 53) with (2 ^ 52 * 2 ^ 1). ring.
    - rewrite toDouble_exact; lia. }
  destruct (Z.le_gt_cases (Z.abs n) 9007199254740992).
  - rewrite !(toDouble_small n) by assumption. reflexivity.
  - destruct (Z.abs_spec n) as [(Hs & E) | (Hs & E)]; rewrite E in *.
    + now apply Hpos.
    + assert (Hn : Js.toDouble n = - Js.toDouble (- n))
        by (rewrite toDouble_opp; lia).
      rewrite Hn, toDouble_opp, Hpos by lia. reflexivity.
Qed.

(* ===================================================================== *)
(** ** Printing and parsing page numbers *)
(* ===================================================================== *)

Section Decimal.

Import DecimalPos.Unsigned.

(** One more digit, of value [k], read after the accumulated value [a]. *)
Lemma digit_step (x u k : N) (a : Z) :
  Z.of_N x + (10 * a + Z.of_N k) * 10 ^ Z.of_N u =
  Z.of_N (x + k * 10 ^ u) + a * 10 ^ Z.of_N (N.succ u).
Proof.
  rewrite N2Z.inj_succ, Z.pow_succ_r by apply N2Z.is_nonneg.
  rewrite N2Z.inj_add, N2Z.inj_mul, N2Z.inj_pow.
  change (Z.of_N 10) with 10. ring.
Qed.

(** Reading the digits of [d] after an accumulated value [a], with the
    text [t] still to come. *)
Lemma parse_digits_uint (d : Decimal.uint) (t : string) : forall a : Z,
  Js.parse_digits (NilEmpty.string_of_uint d ++ t) (Some a) =
  Js.parse_digits t (Some (Z.of_N (of_lu (Decimal.rev d)) + a * 10 ^ Z.of_N (usize d))).
Proof.
  induction d; intros a;
    [ cbn; do 2 f_equal; lia | .. ];
    cbn [NilEmpty.string_of_uint Js.parse_digits String.append];
    match goal with
    | |- context [Js.digit_value ?c] =>
        let v := eval vm_compute in (Js.digit_value c) in
        change (Js.digit_value c) with v
    end;
    cbv iota; rewrite IHd; do 2 f_equal; cbn [Js.nullish usize];
    match goal with
    | |- context [of_lu (Decimal.rev (?D d))] =>
        change (of_lu (Decimal.rev (D d)))
          with (of_lu (Decimal.revapp d (D Decimal.Nil)));
        rewrite (of_lu_revapp d (D Decimal.Nil));
        exact (digit_step (of_lu (Decimal.rev d)) (usize d) (of_lu (D Decimal.Nil)) a)
    end.
Qed.

Lemma parse_digits_to_uint (n : N) (t : string) :
  Js.parse_digits (NilEmpty.string_of_uint (N.to_uint n) ++ t) (Some 0) =
  Js.parse_digits t (Some (Z.of_N n)).
Proof.
  rewrite parse_digits_uint, <- of_uint_alt.
  change (Pos.of_uint (N.to_uint n)) with (N.of_uint (N.to_uint n)).
  rewrite DecimalN.Unsigned.of_to. do 2 f_equal. lia.
Qed.

End Decimal.

(** The first digit is read the same whether or not a digit came before. *)
Lemma parse_digits_None (d : Decimal.uint) (t : string) :
  d <> Decimal.Nil ->
  Js.parse_digits (NilEmpty.string_of_uint d ++ t) None =
  Js.parse_digits (NilEmpty.string_of_uint d ++ t) (Some 0).
Proof.
  destruct d; intros Hd; [contradiction | reflexivity ..].
Qed.

(** A string that starts with a digit has no white space or sign to skip. *)
Lemma parseInt_uint (d : Decimal.uint) (t : string) :
  d <> Decimal.Nil ->
  Js.parseInt (NilEmpty.string_of_uint d ++ t) =
  option_map Js.toDouble (Js.parse_digits (NilEmpty.string_of_uint d ++ t) (Some 0)).
Proof.
  destruct d; intros Hd; [contradiction | reflexivity ..].
Qed.

(** The digits of a positive integer are those of its binary numeral. *)
Lemma decimal_pos (p : positive) :
  Js.decimal (Z.pos p) = NilEmpty.string_of_uint (N.to_uint (N.pos p)) /\
  N.to_uint (N.pos p) <> Decimal.Nil.
Proof.
  assert (Hd : N.to_uint (N.pos p) <> Decimal.Nil).
  { intros He. pose proof (parse_digits_to_uint (N.pos p) "") as Hp.
    rewrite He in Hp. discriminate Hp. }
  split; [|exact Hd].
  unfold Js.decimal. cbn [Z.to_int NilZero.string_of_int].
  change (Pos.to_uint p) with (N.to_uint (N.pos p)).
  unfold NilZero.string_of_uint.
  destruct (N.to_uint (N.pos p)); [contradiction | reflexivity ..].
Qed.

Lemma decimal_neg (p : positive) :
  Js.decimal (Z.neg p) = String "-" (Js.decimal (Z.pos p)).
Proof. reflexivity. Qed.

(** Reading the digits of a non-negative integer [n], with the text [t]
    still to come. *)
Lemma parse_digits_decimal (n : Z) (t : string) :
  0 <= n ->
  Js.parse_digits (Js.decimal n ++ t) None = Js.parse_digits t (Some n).
Proof.
  intros Hn. destruct n as [|p|p]; [reflexivity | | lia].
  destruct (decimal_pos p) as (-> & Hd).
  rewrite parse_digits_None by exact Hd.
  apply parse_digits_to_uint.
Qed.

Lemma parse_digits_zeros (k : nat) (v : Z) :
  Js.parse_digits (Js.zeros k) (Some v) = Some (v * 10 ^ Z.of_nat k).
Proof.
  revert v. induction k as [|k IH]; intros v.
  - cbn. f_equal. lia.
  - cbn [Js.zeros Js.parse_digits]. change (Js.digit_value "0") with (Some 0).
    cbv iota. rewrite IH. f_equal. cbn [Js.nullish].
    rewrite Nat2Z.inj_succ, Z.pow_succ_r by lia. ring.
Qed.

(** What [parse_digits] reads is never negative. *)
Lemma parse_digits_nonneg (s : string) : forall (acc : option Z) (v : Z),
  0 <= Js.nullish acc 0 -> Js.parse_digits s acc = Some v -> 0 <= v.
Proof.
  induction s as [|c r IH]; intros acc v Hacc; cbn [Js.parse_digits].
  - intros ->. exact Hacc.
  - unfold Js.digit_value.
    destruct ((48 <=? Z.of_N (N_of_ascii c)) && (Z.of_N (N_of_ascii c) <=? 57)) eqn:E.
    + apply IH. cbn [Js.nullish].
      apply andb_true_iff in E. destruct E as (E1 & E2).
      apply Z.leb_le in E1. lia.
    + intros ->. exact Hacc.
Qed.

Lemma parse_digits_no_digit (t : string) (acc : option Z) :
  no_digit t -> Js.parse_digits t acc = acc.
Proof.
  destruct t as [|c r]; cbn; [reflexivity | intros ->; reflexivity].
Qed.

(** [parseInt] of the decimal numeral of any integer [n], followed by
    any text that does not continue the numeral, is the number that
    stores [n]. *)
Lemma parseInt_decimal (n : Z) (t : string) :
  no_digit t -> Js.parseInt (Js.decimal n ++ t) = Some (Js.toDouble n).
Proof.
  intros Ht. destruct n as [|p|p].
  - destruct t as [|c r]; [reflexivity|].
    cbn in Ht. unfold Js.parseInt. cbn. rewrite Ht. reflexivity.
  - destruct (decimal_pos p) as (-> & Hd).
    rewrite parseInt_uint by exact Hd.
    rewrite parse_digits_to_uint, parse_digits_no_digit by exact Ht. reflexivity.
  - rewrite decimal_neg.
    change (Js.parseInt (String "-" (Js.decimal (Z.pos p)) ++ t))
      with (option_map (fun m => Js.toDouble (- m))
              (Js.parse_digits (Js.decimal (Z.pos p) ++ t) None)).
    rewrite parse_digits_decimal, parse_digits_no_digit by (lia || exact Ht).
    reflexivity.
Qed.

Lemma append_empty (s : string) : s ++ "" = s.
Proof. induction s as [|c r IH]; cbn; [reflexivity | now rewrite IH]. Qed.

(** [parseInt(String(n), 10)] is [n] for an integer [n] up to [2^53] in
    magnitude. *)
Lemma parseInt_String (n : Z) :
  Z.abs n <= 9007199254740992 -> Js.parseInt (Js.String_ n) = Some n.
Proof.
  intros Hn. unfold Js.String_.
  destruct (Z.leb_spec (Z.abs n) 9007199254740992); [|lia].
  rewrite <- (append_empty (Js.decimal n)).
  rewrite parseInt_decimal by exact I.
  now rewrite toDouble_small.
Qed.

(** The digits [Js.shortest] chooses are stored as the number they
    were chosen for. *)
Lemma shortest_reads (a s z : Z) :
  Js.shortest a = Some (s, z) ->
  0 < s /\ 0 <= z /\ Js.toDouble (s * 10 ^ z) = a.
Proof.
  assert (Hr : forall c, Js.reads_as a c = true ->
                         0 < fst c /\ 0 <= snd c /\ Js.toDouble (fst c * 10 ^ snd c) = a).
  { intros c Hc. unfold Js.reads_as in Hc.
    apply andb_true_iff in Hc. destruct Hc as (Hc & H3).
    apply andb_true_iff in Hc. destruct Hc as (H1 & H2).
    apply Z.ltb_lt in H1. apply Z.leb_le in H2. apply Z.eqb_eq in H3. auto. }
  assert (Hs : forall d ks c, Js.search a d ks = Some c -> Js.reads_as a c = true).
  { intros d ks c. induction ks as [|k ks IH]; cbn [Js.search]; [discriminate|].
    destruct (find _ _) eqn:E.
    - intros [= <-]. apply find_some in E. apply E.
    - exact IH. }
  unfold Js.shortest. intros H.
  destruct (Js.search _ _ _) eqn:E.
  - injection H as ->. apply Hs in E. apply (Hr _ E).
  - destruct (Js.reads_as a (a, 0)) eqn:E0; [|discriminate].
    injection H as <- <-. apply (Hr _ E0).
Qed.

(** Every stored positive number has such digits. *)
Lemma shortest_total (a : Z) :
  0 < a -> Js.toDouble a = a -> exists s z, Js.shortest a = Some (s, z).
Proof.
  intros Ha Hd. unfold Js.shortest.
  destruct (Js.search _ _ _) as [[s z]|]; [now exists s, z|].
  assert (E : Js.reads_as a (a, 0) = true).
  { unfold Js.reads_as. cbn [fst snd]. rewrite Z.mul_1_r, Hd, Z.eqb_refl.
    destruct (Z.ltb_spec 0 a); [reflexivity | lia]. }
  rewrite E. now exists a, 0.
Qed.

(** [parseInt(String(a), 10)] is [a] for a stored number [a] beyond
    [2^53] and below [10^21], which [String] prints with all its
    digits. *)
Lemma parseInt_String_large (a : Z) :
  9007199254740992 < a < 10 ^ 21 -> Js.toDouble a = a ->
  Js.parseInt (Js.String_ a) = Some a.
Proof.
  intros (Hlo & Hhi) Hd. unfold Js.String_, Js.String_large.
  rewrite (Z.abs_eq a) by lia.
  destruct (Z.leb_spec a 9007199254740992); [lia|].
  destruct (Z.ltb_spec a 0); [lia|].
  destruct (Z.leb_spec Js.Infinity a) as [Hi|_].
  { assert (10 ^ 21 < Js.Infinity) by reflexivity. lia. }
  destruct (shortest_total a ltac:(lia) Hd) as (s & z & E). rewrite E.
  destruct (shortest_reads a s z E) as (Hs & Hz & Hr).
  destruct (Z.ltb_spec a (10 ^ 21)); [|lia].
  destruct s as [|p|p]; try lia.
  destruct (decimal_pos p) as (-> & Hp).
  rewrite parseInt_uint by exact Hp.
  rewrite parse_digits_to_uint, parse_digits_zeros.
  cbn [option_map]. rewrite Z2Nat.id by lia.
  change (Z.of_N (N.pos p)) with (Z.pos p). now rewrite Hr.
Qed.

(** The exponential form starts with one character followed by a
    decimal point or by the letter [e]. *)
Lemma exponential_shape (s z : Z) :
  Js.exponential s z = "NaN" \/
  exists c t, Js.exponential s z = String c (String "." t) \/
              Js.exponential s z = String c (String "e" t).
Proof.
  unfold Js.exponential.
  destruct (Js.strip_zeros (Js.decimal s)) as [|c [|c' r]]; [now left | ..];
    right; eexists; eexists; [right | left]; reflexivity.
Qed.

(* ===================================================================== *)
(** ** The filter state and the address of the job list *)
(* ===================================================================== *)

Lemma or_else_nonempty (v : option string) (d : string) :
  d <> "" -> Js.or_else v d <> "".
Proof.
  intros Hd. destruct v as [s|]; simpl; [|assumption].
  destruct (String.eqb_spec s ""); assumption.
Qed.

Lemma or_else_Some (s d : string) : s <> "" -> Js.or_else (Some s) d = s.
Proof.
  intros Hs. simpl. destruct (String.eqb_spec s ""); [contradiction | reflexivity].
Qed.

Lemma isFinite_small (n : Z) : Z.abs n < Js.Infinity -> Js.isFinite n = true.
Proof. intros H. now apply Z.ltb_lt. Qed.

Lemma pageIndex_nonneg (page : string) : 0 <= JobList.pageIndex page.
Proof.
  unfold JobList.pageIndex.
  destruct (Js.parseInt page) as [p|]; [|lia].
  destruct (Js.isFinite p); cbn [andb]; [|lia].
  destruct (Z.gtb_spec p 0); [|lia].
  destruct (Z.eq_dec p 1) as [-> | Hp]; [discriminate|].
  pose proof (proj1 (toDouble_sign (p - 1))). lia.
Qed.

(** The page index read from a text that [parseInt] reads as [n]. *)
Lemma pageIndex_parseInt (page : string) (n : Z) :
  Js.parseInt page = Some n ->
  JobList.pageIndex page =
  if Js.isFinite n && (n >? 0) then Js.toDouble (n - 1) else 0.
Proof. unfold JobList.pageIndex. now intros ->. Qed.

(** A text that starts with a minus sign is read as the first page. *)
Lemma pageIndex_minus (r : string) : JobList.pageIndex (String "-" r) = 0.
Proof.
  unfold JobList.pageIndex.
  change (Js.parseInt (String "-" r))
    with (option_map (fun m => Js.toDouble (- m)) (Js.parse_digits r None)).
  destruct (Js.parse_digits r None) as [m|] eqn:E; [|reflexivity].
  apply parse_digits_nonneg in E; [|cbn; lia]. cbn [option_map].
  destruct (Z.gtb_spec (Js.toDouble (- m)) 0) as [Hp|_];
    [|now rewrite andb_false_r].
  destruct (Z.eq_dec m 0) as [-> | Hm]; [discriminate Hp|].
  pose proof (proj2 (proj2 (toDouble_sign (- m)))). lia.
Qed.

(** A text of one character followed by a decimal point or by the
    letter [e] is read as one of the first nine pages. *)
Lemma pageIndex_exponent (c x : ascii) (t : string) :
  x = "."%char \/ x = "e"%char ->
  0 <= JobList.pageIndex (String c (String x t)) <= 8.
Proof.
  intros [-> | ->];
    destruct t as [|c' t'];
    destruct c as [[] [] [] [] [] [] [] []]; vm_compute; split; discriminate.
Qed.

(** No number is printed as the empty text, and only [1] as ["1"]. *)
Lemma String_shape (n : Z) : Js.String_ n <> "" /\ (Js.String_ n = "1" -> n = 1).
Proof.
  unfold Js.String_.
  destruct (Z.leb_spec (Z.abs n) 9007199254740992) as [Hn|Hn].
  - pose proof (parseInt_String n Hn) as Hp. unfold Js.String_ in Hp.
    destruct (Z.leb_spec (Z.abs n) 9007199254740992); [|lia].
    split; intros He; rewrite He in Hp; [discriminate | cbn in Hp; congruence].
  - destruct (Z.ltb_spec n 0); [split; discriminate|].
    unfold Js.String_large.
    destruct (Js.Infinity <=? n); [split; discriminate|].
    destruct (Js.shortest n) as [[s z]|] eqn:E; [|split; discriminate].
    destruct (shortest_reads n s z E) as (Hs & Hz & Hr).
    destruct (n <? 10 ^ 21).
    + assert (Hp : Js.parse_digits (Js.decimal s ++ Js.zeros (Z.to_nat z)) None =
                   Some (s * 10 ^ z)).
      { rewrite parse_digits_decimal, parse_digits_zeros, Z2Nat.id by lia.
        reflexivity. }
      split; intros He; rewrite He in Hp; [discriminate|].
      cbn in Hp. injection Hp as Hp. rewrite <- Hp in Hr.
      rewrite <- Hr in Hn. cbn in Hn. lia.
    + destruct (exponential_shape s z) as [-> | (c & t & [-> | ->])];
        split; discriminate.
Qed.

(** Beyond [10^21] the page number is printed in a form that is read
    back as one of the first nine pages. *)
Lemma pageIndex_String_huge (a : Z) :
  10 ^ 21 <= a -> 0 <= JobList.pageIndex (Js.String_ a) <= 8.
Proof.
  intros Ha. assert (H21 : 9007199254740992 < 10 ^ 21) by reflexivity.
  unfold Js.String_. rewrite (Z.abs_eq a) by lia.
  destruct (Z.leb_spec a 9007199254740992); [lia|].
  destruct (Z.ltb_spec a 0); [lia|].
  unfold Js.String_large.
  destruct (Js.Infinity <=? a); [vm_compute; split; discriminate|].
  destruct (Js.shortest a) as [[s z]|]; [|vm_compute; split; discriminate].
  destruct (Z.ltb_spec a (10 ^ 21)); [lia|].
  destruct (exponential_shape s z) as [-> | (c & t & [-> | ->])];
    [vm_compute; split; discriminate | apply pageIndex_exponent; auto ..].
Qed.

Lemma num_or_zero_id (n : Z) : Js.num_or_zero n = n.
Proof. unfold Js.num_or_zero. destruct (Z.eqb_spec n 0); congruence. Qed.

(** The page index read back from the page number written for the
    index [p]: it is [p] again exactly for the first page and for the
    indices whose page number is below [10^21] and has the index as its
    predecessor among the numbers. *)
Lemma page_round_trip (p : Z) :
  let pageOneBased := Js.toDouble (p + 1) in
  JobList.pageIndex
    (Js.or_else (if negb (pageOneBased =? 1) then Some (Js.String_ pageOneBased) else None)
                "1") = p
  <-> p = 0 \/ (0 < pageOneBased < 10 ^ 21 /\ Js.toDouble (pageOneBased - 1) = p).
Proof.
  cbv zeta.
  assert (H21 : 9007199254740992 < 10 ^ 21) by reflexivity.
  assert (Hinf : 10 ^ 21 < Js.Infinity) by reflexivity.
  pose proof (toDouble_idempotent (p + 1)) as HP.
  assert (H0 : p = 0 -> Js.toDouble (p + 1) = 1) by (intros ->; reflexivity).
  assert (H1 : Js.toDouble (p + 1) = 1 -> p = 0).
  { intros E. pose proof (toDouble_eq_small (p + 1) 1 ltac:(lia) E). lia. }
  assert (Hs : Z.abs (Js.toDouble (p + 1)) < 9007199254740992 ->
               Js.toDouble (p + 1) = p + 1).
  { intros Hs. symmetry. exact (toDouble_eq_small (p + 1) _ Hs eq_refl). }
  pose proof (toDouble_small (p + 1)) as Hsm.
  generalize dependent (Js.toDouble (p + 1)). intros P HP H0 H1 Hs Hsm.
  destruct (Z.eqb_spec P 1) as [E1|N1]; cbn [negb].
  - apply H1 in E1. subst p. split; [intros _; now left | reflexivity].
  - assert (Np : p <> 0) by (intros E; apply N1, H0, E).
    rewrite or_else_Some by apply String_shape.
    destruct (Z.le_gt_cases (Z.abs P) 9007199254740992) as [Hle|Hgt].
    + rewrite (pageIndex_parseInt _ P (parseInt_String P Hle)).
      rewrite isFinite_small by lia. cbn [andb].
      destruct (Z.gtb_spec P 0) as [Hg|Hg]; split; intros HH; lia.
    + destruct (Z.lt_ge_cases P 0) as [Hneg|Hpos].
      * assert (E : Js.String_ P = String "-" (Js.String_large (- P))).
        { unfold Js.String_. destruct (Z.leb_spec (Z.abs P) 9007199254740992); [lia|].
          destruct (Z.ltb_spec P 0); [reflexivity | lia]. }
        rewrite E, pageIndex_minus. split; intros HH; lia.
      * rewrite Z.abs_eq in Hgt by lia.
        destruct (Z.lt_ge_cases P (10 ^ 21)) as [Hlt|Hge].
        -- rewrite (pageIndex_parseInt _ P (parseInt_String_large P (conj Hgt Hlt) HP)).
           rewrite isFinite_small by lia. cbn [andb].
           destruct (Z.gtb_spec P 0) as [Hg|Hg]; [|lia]. split; intros HH; lia.
        -- pose proof (pageIndex_String_huge P Hge) as Hi.
           split; intros HH; [|lia].
           rewrite HH in Hi. lia.
Qed.

(** Below [Number.MAX_SAFE_INTEGER] every page index is read back. *)
Lemma page_round_trip_safe (p : Z) :
  0 <= p < Js.MAX_SAFE_INTEGER ->
  p = 0 \/ (0 < Js.toDouble (p + 1) < 10 ^ 21 /\ Js.toDouble (Js.toDouble (p + 1) - 1) = p).
Proof.
  unfold Js.MAX_SAFE_INTEGER. intros Hp. right.
  assert (H21 : 9007199254740992 < 10 ^ 21) by reflexivity.
  rewrite (toDouble_small (p + 1)) by lia.
  replace (p + 1 - 1) with p by lia.
  rewrite toDouble_small by lia. lia.
Qed.

(** The state read from any address has non-empty drop-down values and
    a non-negative page index. *)
Lemma initialState_invariant (searchParams : URLSearchParams.t) :
  let st := JobList.initialState searchParams in
  JobList.statusFilter st <> "" /\ JobList.taskFilter st <> "" /\
  JobList.queueFilter st <> "" /\ 0 <= JobList.currentPage st.
Proof.
  cbn. repeat split;
    try (apply or_else_nonempty; discriminate); apply pageIndex_nonneg.
Qed.

(** Choosing an [<option>] of a drop-down keeps the values non-empty and
    resets the page index. *)
Lemma handleFilterChange_invariant (filterType value : string) (st : JobList.State) :
  value <> "" -> JobList.wellFormed st ->
  JobList.wellFormed (JobList.handleFilterChange filterType value st).
Proof.
  intros Hv (Hs & Ht & Hq & Hp).
  unfold JobList.handleFilterChange, JobList.wellFormed, Js.MAX_SAFE_INTEGER.
  destruct (String.eqb filterType "status"), (String.eqb filterType "task"),
    (String.eqb filterType "search"); cbn; repeat split; (assumption || lia).
Qed.

(** The "update state" effect leaves the view in the state the address
    denotes, whatever the state was. *)
Lemma syncState_initialState (searchParams : URLSearchParams.t) (st : JobList.State) :
  JobList.syncState searchParams st = JobList.initialState searchParams.
Proof.
  unfold JobList.syncState, JobList.initialState.
  f_equal;
    match goal with
    | |- (if negb (String.eqb ?a ?b) then _ else _) = _ =>
        destruct (String.eqb_spec a b); cbn; congruence
    | |- (if negb (?a =? ?b) then _ else _) = _ =>
        destruct (Z.eqb_spec a b); cbn; congruence
    end.
Qed.

Lemma URLSearchParams_eqb_eq (p q : URLSearchParams.t) :
  URLSearchParams.eqb p q = true <-> p = q.
Proof.
  revert q. induction p as [|[k v] p IH]; intros [|[k' v'] q]; cbn;
    try (split; (reflexivity || discriminate)).
  rewrite !andb_true_iff, IH, !String.eqb_eq.
  split; [intros [[-> ->] ->]; reflexivity | intros [= -> -> ->]; auto].
Qed.

(** After the "keep URL in sync" effect the address carries exactly the
    parameters built from the state. *)
Lemma syncUrl_stateParams (st : JobList.State) (searchParams : URLSearchParams.t) :
  JobList.syncUrl st searchParams = JobList.stateParams st.
Proof.
  unfold JobList.syncUrl.
  destruct (URLSearchParams.eqb (JobList.stateParams st) searchParams) eqn:E; cbn;
    [symmetry; now apply URLSearchParams_eqb_eq | reflexivity].
Qed.

(** The state read from the parameters written for a state: each cell
    is read from the value written for it, or from its default when
    none was written. *)
Lemma initialState_stateParams_cells (st : JobList.State) :
  let pageOneBased := Js.toDouble (JobList.currentPage st + 1) in
  let written (v : string) :=
    if negb (String.eqb v "") && negb (String.eqb v "all") then Some v else None in
  JobList.initialState (JobList.stateParams st) =
  {| JobList.searchTerm :=
       Js.or_else (if negb (String.eqb (JobList.searchTerm st) "")
                   then Some (JobList.searchTerm st) else None) "";
     JobList.statusFilter := Js.or_else (written (JobList.statusFilter st)) "all";
     JobList.taskFilter := Js.or_else (written (JobList.taskFilter st)) "all";
     JobList.queueFilter := Js.or_else (written (JobList.queueFilter st)) "all";
     JobList.currentPage :=
       JobList.pageIndex
         (Js.or_else (if negb (pageOneBased =? 1)
                      then Some (Js.String_ pageOneBased) else None) "1") |}.
Proof.
  destruct st as [q s t u p]. cbv zeta.
  unfold JobList.stateParams, JobList.initialState.
  cbn [JobList.searchTerm JobList.statusFilter JobList.taskFilter
       JobList.queueFilter JobList.currentPage].
  rewrite num_or_zero_id.
  generalize (Js.String_ (Js.toDouble (p + 1))). intros page.
  destruct (negb (String.eqb q "")),
    (negb (String.eqb s "") && negb (String.eqb s "all")),
    (negb (String.eqb t "") && negb (String.eqb t "all")),
    (negb (String.eqb u "") && negb (String.eqb u "all")),
    (negb (Js.toDouble (p + 1) =? 1)); reflexivity.
Qed.

(** A cell with a default is read back from what was written for it
    exactly when it is not empty. *)
Lemma written_round_trip (v : string) :
  Js.or_else (if negb (String.eqb v "") && negb (String.eqb v "all")
              then Some v else None) "all" = v <-> v <> "".
Proof.
  destruct (String.eqb_spec v "") as [-> | Hv]; cbn [negb andb].
  - cbn. split; [discriminate | congruence].
  - destruct (String.eqb_spec v "all") as [-> | Ha]; cbn [negb].
    + cbn. split; [discriminate | reflexivity].
    + rewrite or_else_Some by assumption. split; [auto | reflexivity].
Qed.

Lemma searchTerm_round_trip (q : string) :
  Js.or_else (if negb (String.eqb q "") then Some q else None) "" = q.
Proof.
  destruct (String.eqb_spec q "") as [-> | Hq]; cbn [negb];
    [reflexivity | now apply or_else_Some].
Qed.

(** Which states are read back from the parameters written for them. *)
Lemma initialState_stateParams_iff (st : JobList.State) :
  JobList.initialState (JobList.stateParams st) = st <->
  JobList.statusFilter st <> "" /\ JobList.taskFilter st <> "" /\
  JobList.queueFilter st <> "" /\
  (JobList.currentPage st = 0 \/
   (0 < Js.toDouble (JobList.currentPage st + 1) < 10 ^ 21 /\
    Js.toDouble (Js.toDouble (JobList.currentPage st + 1) - 1) = JobList.currentPage st)).
Proof.
  rewrite initialState_stateParams_cells. cbv zeta.
  rewrite <- (page_round_trip (JobList.currentPage st)). cbv zeta.
  rewrite <- (written_round_trip (JobList.statusFilter st)).
  rewrite <- (written_round_trip (JobList.taskFilter st)).
  rewrite <- (written_round_trip (JobList.queueFilter st)).
  rewrite searchTerm_round_trip.
  destruct st as [q s t u p].
  cbn [JobList.searchTerm JobList.statusFilter JobList.taskFilter
       JobList.queueFilter JobList.currentPage].
  split.
  - intros [= Hs Ht Hu Hp]. auto.
  - intros (Hs & Ht & Hu & Hp). congruence.
Qed.

Lemma initialState_stateParams (st : JobList.State) :
  JobList.wellFormed st -> JobList.initialState (JobList.stateParams st) = st.
Proof.
  intros (Hs & Ht & Hu & Hp). apply initialState_stateParams_iff.
  repeat split; try assumption. now apply page_round_trip_safe.
Qed.

(** C6 (counterexample): the view opened at [?page=1000000000000000000000]
    is on the page of index [10^21]; the address written for this state
    carries [page=1e+21], which is read back as the first page. *)
Lemma C6_counterexample :
  Samples.astronomical =
    {| JobList.searchTerm := ""; JobList.statusFilter := "all";
       JobList.taskFilter := "all"; JobList.queueFilter := "all";
       JobList.currentPage := 10 ^ 21 |} /\
  JobList.syncUrl Samples.astronomical [("page", "1000000000000000000000")] =
    [("page", "1e+21")] /\
  JobList.currentPage (JobList.initialState (JobList.stateParams Samples.astronomical)) = 0 /\
  JobList.initialState (JobList.stateParams Samples.astronomical) <> Samples.astronomical /\
  JobList.syncState (JobList.stateParams Samples.astronomical) Samples.astronomical
    <> Samples.astronomical.
Proof.
  vm_compute. repeat split; discriminate.
Qed.

(** C6: writing a filter state of the job list to the address
    parameters and re-initialising the view from them, through the
    [useState] initialisers or through the "update state" effect,
    reconstructs the same state exactly when the status, task and queue
    values are not empty (in the view they never are) and the page index
    is [0] or one whose one-based page number is below [10^21] and has
    the index as its predecessor among the numbers; this is so for every
    page index from [0] up to [Number.MAX_SAFE_INTEGER - 1], and for any
    search term. *)
Theorem C6_filter_state_round_trip
  (st other : JobList.State) (current : URLSearchParams.t) :
  let roundTrip :=
    JobList.initialState (JobList.syncUrl st current) = st /\
    JobList.syncState (JobList.syncUrl st current) other = st in
  let pageOneBased := Js.toDouble (JobList.currentPage st + 1) in
  (roundTrip <->
   JobList.statusFilter st <> "" /\ JobList.taskFilter st <> "" /\
   JobList.queueFilter st <> "" /\
   (JobList.currentPage st = 0 \/
    (0 < pageOneBased < 10 ^ 21 /\
     Js.toDouble (pageOneBased - 1) = JobList.currentPage st))) /\
  (JobList.wellFormed st -> roundTrip).
Proof.
  cbv zeta. rewrite syncState_initialState, syncUrl_stateParams.
  rewrite <- initialState_stateParams_iff. split.
  - split; [intros (H & _); exact H | intros H; split; exact H].
  - intros Hst. split; now apply initialState_stateParams.
Qed.

Lemma C6_filter_state_round_trip_witness :
  JobList.initialState (JobList.syncUrl Samples.filtered []) = Samples.filtered /\
  JobList.syncState (JobList.syncUrl Samples.filtered []) Samples.blankStatus
  = Samples.filtered.
Proof.
  apply (C6_filter_state_round_trip Samples.filtered Samples.blankStatus []).
  unfold JobList.wellFormed, Js.MAX_SAFE_INTEGER; simpl.
  repeat split; (discriminate || lia).
Defined.

(* ===================================================================== *)
(** ** The status predicates behind the dashboard counts *)
(* ===================================================================== *)

(** Splits on the truthiness and the comparisons a status predicate
    reads, then closes the goal by evaluation or linear arithmetic. *)
Ltac status_cases j :=
  destruct (Js.truthy (lockedAt j)), (Js.truthy (lastError j)),
    (Z.ltb_spec (attempts j) (maxAttempts j)),
    (Z.geb_spec (attempts j) (maxAttempts j)),
    (Z.gtb_spec (attempts j) 0);
  cbn; try reflexivity; try lia.

(** The same split for a statement about when two predicates hold
    together. *)
Ltac overlap_cases j :=
  destruct (Js.truthy (lockedAt j)), (Js.truthy (lastError j)),
    (Z.ltb_spec (attempts j) (maxAttempts j)),
    (Z.geb_spec (attempts j) (maxAttempts j)),
    (Z.gtb_spec (attempts j) 0);
  cbn; split; intros HH; repeat split;
  try reflexivity; try lia; try discriminate;
  decompose [and] HH; try discriminate; try lia.

Lemma AppScan_exhaustive (j : Job) :
  1 <= maxAttempts j ->
  AppScan.isPending j || AppScan.isRunning j
  || AppScan.isFailed j || AppScan.isCompleted j = true.
Proof.
  intros Hm.
  unfold AppScan.isPending, AppScan.isRunning, AppScan.isFailed, AppScan.isCompleted.
  status_cases j.
Qed.

Lemma Dashboard_exhaustive (j : Job) :
  1 <= maxAttempts j ->
  Dashboard.isPending j || Dashboard.isRunning j
  || Dashboard.isFailed j || Dashboard.isCompleted j = true.
Proof.
  intros Hm.
  unfold Dashboard.isPending, Dashboard.isRunning, Dashboard.isFailed,
    Dashboard.isCompleted.
  status_cases j.
Qed.

(** C3, as stated, fails.  The job-scan statistics count an unlocked job
    with an error and attempts left as pending and as failed, and an
    unlocked job with one attempt, no error and attempts left as pending
    and as completed; the dashboard's own statistics count the latter
    job twice as well, and count a locked job on its last attempt that
    carries the error of the attempt before as running and as failed. *)
Lemma C3_counterexample :
  (consistent Samples.retrying /\
   AppScan.isPending Samples.retrying = true /\
   AppScan.isFailed Samples.retrying = true) /\
  (consistent Samples.succeeded /\
   AppScan.isPending Samples.succeeded = true /\
   AppScan.isCompleted Samples.succeeded = true /\
   Dashboard.isPending Samples.succeeded = true /\
   Dashboard.isCompleted Samples.succeeded = true) /\
  (consistent Samples.lastAttempt /\
   Dashboard.isRunning Samples.lastAttempt = true /\
   Dashboard.isFailed Samples.lastAttempt = true).
Proof.
  unfold consistent; cbn.
  repeat split; try reflexivity; try lia; discriminate.
Qed.

(** C3 (amended): every job row with consistent fields satisfies at
    least one of the four predicates of either statistics computation.
    For every job row, the predicates of the job-scan statistics are
    pairwise disjoint except pending with failed, which hold together
    exactly for an unlocked job with an error and attempts left, and
    pending with completed, which hold together exactly for an unlocked
    job with no error, at least one attempt and attempts left; the
    predicates of the dashboard's own statistics are pairwise disjoint
    except pending with completed, which hold together for exactly the
    same jobs, and running with failed, which hold together exactly for
    a locked job with an error and no attempts left.  A job row with
    consistent fields is counted in exactly one bucket unless it is one
    of those. *)
Theorem C3_status_predicates_cover (j : Job) :
  (consistent j ->
   (AppScan.isPending j || AppScan.isRunning j
    || AppScan.isFailed j || AppScan.isCompleted j = true) /\
   (Dashboard.isPending j || Dashboard.isRunning j
    || Dashboard.isFailed j || Dashboard.isCompleted j = true)) /\
  (AppScan.isPending j && AppScan.isRunning j = false /\
   AppScan.isRunning j && AppScan.isFailed j = false /\
   AppScan.isRunning j && AppScan.isCompleted j = false /\
   AppScan.isFailed j && AppScan.isCompleted j = false) /\
  (AppScan.isPending j && AppScan.isFailed j = true <->
   Js.truthy (lockedAt j) = false /\ Js.truthy (lastError j) = true /\
   attempts j < maxAttempts j) /\
  (AppScan.isPending j && AppScan.isCompleted j = true <->
   Js.truthy (lockedAt j) = false /\ Js.truthy (lastError j) = false /\
   0 < attempts j < maxAttempts j) /\
  (Dashboard.isPending j && Dashboard.isRunning j = false /\
   Dashboard.isPending j && Dashboard.isFailed j = false /\
   Dashboard.isRunning j && Dashboard.isCompleted j = false /\
   Dashboard.isFailed j && Dashboard.isCompleted j = false) /\
  (Dashboard.isPending j && Dashboard.isCompleted j = true <->
   Js.truthy (lockedAt j) = false /\ Js.truthy (lastError j) = false /\
   0 < attempts j < maxAttempts j) /\
  (Dashboard.isRunning j && Dashboard.isFailed j = true <->
   Js.truthy (lockedAt j) = true /\ Js.truthy (lastError j) = true /\
   maxAttempts j <= attempts j) /\
  (consistent j ->
   (AppScan.buckets j = 1 <->
    AppScan.isPending j && AppScan.isFailed j = false /\
    AppScan.isPending j && AppScan.isCompleted j = false) /\
   (Dashboard.buckets j = 1 <->
    Dashboard.isPending j && Dashboard.isCompleted j = false /\
    Dashboard.isRunning j && Dashboard.isFailed j = false)).
Proof.
  split.
  { intros (_ & Hm & _).
    split; [now apply AppScan_exhaustive | now apply Dashboard_exhaustive]. }
  unfold AppScan.buckets, Dashboard.buckets,
    AppScan.isPending, AppScan.isRunning, AppScan.isFailed, AppScan.isCompleted,
    Dashboard.isPending, Dashboard.isRunning, Dashboard.isFailed,
    Dashboard.isCompleted.
  split; [repeat split; status_cases j|].
  split; [overlap_cases j|].
  split; [overlap_cases j|].
  split; [repeat split; status_cases j|].
  split; [overlap_cases j|].
  split; [overlap_cases j|].
  intros (_ & Hm & _). split; overlap_cases j.
Qed.

Lemma C3_status_predicates_cover_witness :
  (AppScan.isPending Samples.dead || AppScan.isRunning Samples.dead
   || AppScan.isFailed Samples.dead || AppScan.isCompleted Samples.dead = true) /\
  (Dashboard.isPending Samples.dead || Dashboard.isRunning Samples.dead
   || Dashboard.isFailed Samples.dead || Dashboard.isCompleted Samples.dead = true) /\
  AppScan.buckets Samples.dead = 1 /\
  Dashboard.buckets Samples.dead = 1 /\
  (Js.truthy (lockedAt Samples.lastAttempt) = true /\
   Js.truthy (lastError Samples.lastAttempt) = true /\
   maxAttempts Samples.lastAttempt <= attempts Samples.lastAttempt).
Proof.
  assert (Hdead : consistent Samples.dead).
  { unfold consistent; simpl. repeat split; (lia || discriminate). }
  destruct (C3_status_predicates_cover Samples.dead)
    as (Hcover & _ & _ & _ & _ & _ & _ & Hone).
  destruct (C3_status_predicates_cover Samples.lastAttempt)
    as (_ & _ & _ & _ & _ & _ & Hboth & _).
  destruct (Hcover Hdead) as (HA & HD).
  destruct (Hone Hdead) as (HoneA & HoneD).
  split; [exact HA|]. split; [exact HD|].
  split; [apply HoneA; split; reflexivity|].
  split; [apply HoneD; split; reflexivity|].
  apply Hboth. reflexivity.
Defined.

(* ===================================================================== *)
(** ** Dashboard totals *)
(* ===================================================================== *)

Lemma count_cons (p : Job -> bool) (j : Job) (jobs : list Job) :
  count p (j :: jobs) = (if p j then 1 else 0) + count p jobs.
Proof.
  unfold count. cbn [filter]. destruct (p j); cbn [List.length]; lia.
Qed.

Lemma count_nonneg (p : Job -> bool) (jobs : list Job) : 0 <= count p jobs.
Proof. unfold count. lia. Qed.

(** Each consistent row adds one to the total and at least one to the
    four status counts of the job scan. *)
Lemma AppScan_total_le_sum (jobs : list Job) :
  Forall consistent jobs ->
  Z.of_nat (List.length jobs) <=
  count AppScan.isPending jobs + count AppScan.isRunning jobs
  + count AppScan.isFailed jobs + count AppScan.isCompleted jobs.
Proof.
  induction 1 as [|j jobs Hj _ IH]; [cbn; lia|].
  rewrite !count_cons. cbn [List.length]. rewrite Nat2Z.inj_succ.
  destruct Hj as (_ & Hm & _).
  pose proof (AppScan_exhaustive j Hm) as Hex.
  destruct (AppScan.isPending j), (AppScan.isRunning j),
    (AppScan.isFailed j), (AppScan.isCompleted j); try discriminate Hex; lia.
Qed.

(** C4, as stated, fails: when the running count is taken after a job
    arrived that the total did not yet count, the clamped pending count
    makes the four counts add up to more than the total; and the job scan
    counts one job with an error and attempts left twice. *)
Lemma C4_counterexample :
  (let s := App.jobStats Samples.racing in
   total s = 0 /\ pending s + running s + failed s + completed s = 1) /\
  (let s := AppScan.jobStats [Samples.retrying] in
   total s = 1 /\ pending s + running s + failed s + completed s = 2).
Proof. repeat split. Qed.

(** C4 (amended): for every response whose running, failed and completed
    counts together do not exceed its total, the dashboard's total is the
    sum of its four per-status counts; for every scanned population of
    consistent rows the total is at most that sum. *)
Theorem C4_total_and_status_counts (data : App.DashboardData) (jobs : list Job) :
  (let c := App.counts data in
   App.c_running c + App.c_failed c + App.c_completed c <= App.c_total c) ->
  Forall consistent jobs ->
  (let s := App.jobStats data in
   total s = pending s + running s + failed s + completed s) /\
  (let s := AppScan.jobStats jobs in
   total s <= pending s + running s + failed s + completed s).
Proof.
  intros Hle Hjobs. split.
  - cbn in *. rewrite !num_or_zero_id. lia.
  - cbn. now apply AppScan_total_le_sum.
Qed.

Lemma C4_total_and_status_counts_witness :
  (let s := App.jobStats Samples.steady in
   total s = pending s + running s + failed s + completed s) /\
  (let s := AppScan.jobStats [Samples.dead; Samples.succeeded] in
   total s <= pending s + running s + failed s + completed s).
Proof.
  apply (C4_total_and_status_counts Samples.steady [Samples.dead; Samples.succeeded]).
  - simpl. lia.
  - repeat constructor; simpl; (lia || discriminate).
Defined.

(** C10: whatever counts the response carries, also missing ones and
    ones where running, failed and completed exceed the total, the
    derived pending count is the difference clamped at zero, hence never
    negative. *)
Theorem C10_pending_never_negative (data : App.DashboardData) :
  let s := App.jobStats data in
  0 <= pending s /\
  pending s = Z.max 0 (total s - running s - failed s - completed s).
Proof.
  cbn. rewrite !num_or_zero_id. split; [lia | reflexivity].
Qed.

(* ===================================================================== *)
(** ** The mutation resolvers *)
(* ===================================================================== *)

Section ResolverFacts.

Import Server.

Context {Error Rows : Type}.
Variable pg : list Call -> string -> list Param -> Error + Rows.

(** A resolver sends its one statement and then either returns [true],
    or logs the error and returns [false]. *)
Lemma run_resolve (m : Mutation) (jobId : string) (w : World Error) :
  run (resolve pg m jobId) w =
  let sent := (calls w ++ [(statement m, values m jobId)])%list in
  match pg (calls w) (statement m) (values m jobId) with
  | inr _ => (inr true, {| calls := sent; console := console w |})
  | inl error =>
      (inr false, {| calls := sent; console := console w ++ [(logLine m, error)] |})
  end.
Proof.
  destruct m; cbn;
    match goal with
    | |- context [pg ?c ?s ?v] => destruct (pg c s v)
    end; reflexivity.
Qed.

End ResolverFacts.

(** C5: each of [retryJob], [cancelJob] and [completeJob], on every job
    identifier and against every behaviour of the database, returns
    [true] when its stored-procedure query is fulfilled; when the query
    is rejected with any error it writes one [console.error] line
    carrying that error and returns [false].  The resolver never throws,
    and its result is the boolean alone. *)
Theorem C5_resolvers_swallow_errors
  (Error Rows : Type) (pg : list Server.Call -> string -> list Server.Param -> Error + Rows)
  (m : Server.Mutation) (jobId : string) (w : Server.World Error) :
  let outcome := pg (Server.calls w) (Server.statement m) (Server.values m jobId) in
  let result := Server.run (Server.resolve pg m jobId) w in
  match outcome with
  | inr _ =>
      fst result = inr true /\
      Server.console (snd result) = Server.console w
  | inl error =>
      fst result = inr false /\
      Server.console (snd result) = (Server.console w ++ [(Server.logLine m, error)])%list
  end.
Proof.
  cbv zeta. rewrite run_resolve. cbv zeta.
  destruct (pg (Server.calls w) (Server.statement m) (Server.values m jobId));
    split; reflexivity.
Qed.

(** C7: whatever the job identifier, the database and the calls made
    before, [cancelJob] sends exactly one statement, the call of
    [permanently_fail_jobs] with the one-element array of that identifier
    and the reason ['Cancelled by user']. *)
Theorem C7_cancel_reason_is_fixed
  (Error Rows : Type) (pg : list Server.Call -> string -> list Server.Param -> Error + Rows)
  (jobId : string) (w : Server.World Error) :
  Server.calls (snd (Server.run (Server.cancelJob pg jobId) w)) =
  (Server.calls w ++
   [ ("SELECT graphile_worker.permanently_fail_jobs($1::bigint[], $2)",
      [Server.PArray [jobId]; Server.PText "Cancelled by user"]) ])%list.
Proof.
  change (Server.cancelJob pg jobId) with (Server.resolve pg Server.CancelJob jobId).
  rewrite run_resolve. cbv zeta.
  destruct (pg _ _ _); reflexivity.
Qed.

(* ===================================================================== *)
(** ** Polling intervals *)
(* ===================================================================== *)

(** C8, as stated, fails: the job detail panel polls every 2 seconds. *)
Lemma C8_counterexample :
  In ("job detail panel", JobDetails.pollInterval) pollIntervals /\
  JobDetails.pollInterval = 2000 /\
  ~ (5000 <= JobDetails.pollInterval <= 30000).
Proof.
  repeat split.
  - simpl. tauto.
  - unfold JobDetails.pollInterval. lia.
Qed.

(** C8 (amended): every view's fixed polling interval lies between 2
    and 30 seconds inclusive, and every view other than the job detail
    panel polls at an interval between 5 and 30 seconds inclusive. *)
Theorem C8_poll_interval_bounds (view : string) (ms : Z) :
  In (view, ms) pollIntervals ->
  2000 <= ms <= 30000 /\
  (view <> "job detail panel" -> 5000 <= ms <= 30000).
Proof.
  unfold pollIntervals. cbn [In].
  intros H; repeat destruct H as [H | H]; try contradiction;
    injection H as <- <-; cbv; repeat split; try discriminate; try congruence.
Qed.

Lemma C8_poll_interval_bounds_witness :
  2000 <= Queues.pollInterval <= 30000 /\
  ("queues" <> "job detail panel" -> 5000 <= Queues.pollInterval <= 30000).
Proof.
  apply (C8_poll_interval_bounds "queues" Queues.pollInterval).
  simpl. tauto.
Defined.

(* ===================================================================== *)
(** ** Pagination *)
(* ===================================================================== *)

(** Whatever a control passes to [onPageChange] is a valid page index,
    whether or not the control is enabled. *)
Lemma handler_in_range (props : Pagination.Props) (i : Pagination.Interaction) (page : Z) :
  1 <= Pagination.totalPages props ->
  0 <= Pagination.currentPage props <= Pagination.totalPages props - 1 ->
  Pagination.handler props i = Some page ->
  0 <= page <= Pagination.totalPages props - 1.
Proof.
  intros Ht Hc.
  destruct i as [| |value| |]; cbn [Pagination.handler];
    try (intros [= <-]; lia).
  destruct (Js.parseInt _) as [p|]; [|discriminate].
  intros [= <-]. lia.
Qed.

(** The only interaction that does not call [onPageChange] is typing
    a text [parseInt] reads as [NaN]. *)
Lemma handler_None (props : Pagination.Props) (i : Pagination.Interaction) :
  Pagination.handler props i = None ->
  exists value, i = Pagination.PageInput value /\
                Js.parseInt (Js.or_else (Some value) "1") = None.
Proof.
  destruct i as [| |value| |]; cbn [Pagination.handler]; try discriminate.
  destruct (Js.parseInt _) eqn:E; [discriminate|].
  intros _. now exists value.
Qed.

(** C9: with at least one page and the current page index among the
    valid ones, every interaction with the controls (any text typed into
    the page field, or any of the four buttons) that calls
    [onPageChange] passes it an index between [0] and [totalPages - 1];
    the buttons always call it, and the page field does unless the typed
    text is not a number. *)
Theorem C9_page_change_in_range
  (props : Pagination.Props) (i : Pagination.Interaction) :
  1 <= Pagination.totalPages props ->
  0 <= Pagination.currentPage props <= Pagination.totalPages props - 1 ->
  (forall page,
     Pagination.handler props i = Some page \/ Pagination.interact props i = Some page ->
     0 <= page <= Pagination.totalPages props - 1) /\
  (Pagination.handler props i = None ->
   exists value, i = Pagination.PageInput value /\
                 Js.parseInt (Js.or_else (Some value) "1") = None).
Proof.
  intros Ht Hc. split; [|apply handler_None].
  intros page [H | H].
  - now apply (handler_in_range props i).
  - unfold Pagination.interact in H.
    destruct (Pagination.disabled props i); [discriminate|].
    now apply (handler_in_range props i).
Qed.

Lemma C9_page_change_in_range_witness :
  0 <= 4 <= Pagination.totalPages Samples.thirdOfFive - 1.
Proof.
  apply (C9_page_change_in_range Samples.thirdOfFive (Pagination.PageInput "99")).
  - simpl. lia.
  - simpl. lia.
  - left. reflexivity.
Defined.

(* ===================================================================== *)
(** ** Row actions and the agreement of the views on a status *)
(* ===================================================================== *)

(** Splits a job on the three facts every status derivation reads. *)
Ltac job_cases j :=
  destruct (Js.truthy (lockedAt j)), (Js.truthy (lastError j)),
    (Z.gtb_spec (attempts j) 0), (Z.geb_spec (attempts j) (maxAttempts j));
  cbn.

(** X1: the buttons of a job-list row, by the fields of the job: Retry
    is offered exactly for an unlocked job with an error, Complete
    exactly for an unlocked job without error and without attempts, and
    Cancel exactly for those and for locked jobs.  So Retry never
    appears with another button, and an unlocked job without error after
    at least one attempt has no button at all. *)
Theorem X1_row_actions (j : Job) :
  let unlocked := Js.truthy (lockedAt j) = false in
  let clean := Js.truthy (lastError j) = false in
  (In Retry (JobListView.rowActions j) <-> unlocked /\ ~ clean) /\
  (In Complete (JobListView.rowActions j) <-> unlocked /\ clean /\ attempts j <= 0) /\
  (In Cancel (JobListView.rowActions j) <->
     ~ unlocked \/ (clean /\ attempts j <= 0)) /\
  (In Retry (JobListView.rowActions j) -> JobListView.rowActions j = [Retry]) /\
  (JobListView.rowActions j = [] <-> unlocked /\ clean /\ 0 < attempts j).
Proof.
  unfold JobListView.rowActions, JobList.getJobStatus.
  job_cases j; repeat split; intros; cbn in *;
    repeat match goal with
           | H : _ \/ _ |- _ => destruct H
           | H : _ /\ _ |- _ => destruct H
           end;
    try discriminate; try contradiction; try lia; try congruence; auto;
    try (right; split; [reflexivity | lia]).
Qed.

Lemma X1_row_actions_witness :
  In Retry (JobListView.rowActions Samples.dead) /\
  JobListView.rowActions Samples.dead = [Retry].
Proof.
  destruct (X1_row_actions Samples.dead) as (Hr & _ & _ & Honly & _).
  assert (H : In Retry (JobListView.rowActions Samples.dead)).
  { apply Hr. split; [reflexivity | discriminate]. }
  split; [exact H | exact (Honly H)].
Defined.

(** X2: the routed job page derives the same status as the job list for
    every job; the detail panel derives the same status exactly when the
    job is not an unlocked one with an error and attempts left, and for
    such a job the list row offers Retry while the panel offers Cancel
    and Complete. *)
Theorem X2_views_agree_on_status (j : Job) :
  let retriable := Js.truthy (lockedAt j) = false /\ Js.truthy (lastError j) = true
                   /\ attempts j < maxAttempts j in
  JobPage.status j = JobList.getJobStatus j /\
  (JobDetails.getJobStatus j = JobList.getJobStatus j <-> ~ retriable) /\
  (retriable ->
   JobListView.rowActions j = [Retry] /\ panelActions j = [Cancel; Complete]).
Proof.
  unfold JobListView.rowActions, panelActions, JobPage.status,
    JobList.getJobStatus, JobDetails.getJobStatus.
  job_cases j; repeat split; intros; cbn in *;
    repeat match goal with
           | H : _ /\ _ |- _ => destruct H
           | H : ~ _ |- _ => try (exfalso; apply H; repeat split; (reflexivity || lia))
           end;
    try discriminate; try lia; try reflexivity;
    try (intros (_ & _ & ?); lia); try (intros (? & _); discriminate);
    try (intros (_ & ? & _); discriminate).
Qed.

Lemma X2_views_agree_on_status_witness :
  JobListView.rowActions Samples.retrying = [Retry] /\
  panelActions Samples.retrying = [Cancel; Complete].
Proof.
  apply (X2_views_agree_on_status Samples.retrying).
  repeat split.
Defined.

(* ===================================================================== *)
(** ** Page counts, page ranges and page buttons *)
(* ===================================================================== *)

Lemma totalPages_bounds (totalCount : Z) :
  25 * (JobListView.totalPages totalCount - 1) < totalCount
  <= 25 * JobListView.totalPages totalCount.
Proof.
  unfold JobListView.totalPages, JobListView.pageSize.
  Z.div_mod_to_equations. lia.
Qed.



(** X4: when the job list shows the pagination controls for a page index
    among the valid ones, the range "Showing [from] to [to]" starts right
    after the query's offset, is not empty, has at most 25 rows, stays
    within the total, is full on every page but the last and ends at the
    total on the last page. *)
Theorem X4_showing_range
  (st : JobList.State) (totalCount : Z) (hasNext hasPrev : bool)
  (props : Pagination.Props) :
  0 <= JobList.currentPage st < JobListView.totalPages totalCount ->
  JobListView.paginationProps st totalCount hasNext hasPrev = Some props ->
  Pagination.from props = JobListView.offset (JobListView.variables st) + 1 /\
  1 <= Pagination.from props <= Pagination.to props /\
  Pagination.to props <= totalCount /\
  Pagination.to props - Pagination.from props + 1 <= JobListView.pageSize /\
  (JobList.currentPage st < JobListView.totalPages totalCount - 1 ->
   Pagination.to props = Pagination.from props + 24) /\
  (JobList.currentPage st = JobListView.totalPages totalCount - 1 ->
   Pagination.to props = totalCount).
Proof.
  intros Hc Hp.
  pose proof (totalPages_bounds totalCount) as Hb.
  unfold JobListView.paginationProps in Hp.
  destruct (JobListView.totalPages totalCount >? 1); [|discriminate].
  injection Hp as <-.
  unfold Pagination.from, Pagination.to, JobListView.variables, JobListView.pageSize in *.
  cbn [Pagination.totalCount Pagination.currentPage Pagination.pageSize
       JobListView.offset].
  destruct (Z.eqb_spec totalCount 0); repeat split; lia.
Qed.

Lemma X4_showing_range_witness :
  let props := {| Pagination.currentPage := 3; Pagination.totalPages := 5;
                  Pagination.totalCount := 120; Pagination.pageSize := 25;
                  Pagination.hasNextPage := true;
                  Pagination.hasPreviousPage := true |} in
  Pagination.from props = 76 /\ Pagination.to props = 100.
Proof.
  pose proof (X4_showing_range Samples.filtered 120 true true _
                ltac:(cbn; lia) eq_refl) as H.
  cbn in *. lia.
Defined.

Lemma In_indices (n i : Z) : In i (JobListLegacy.indices n) <-> 0 <= i < n.
Proof.
  unfold JobListLegacy.indices. rewrite in_map_iff. split.
  - intros (k & <- & Hk). apply in_seq in Hk. lia.
  - intros Hi. exists (Z.to_nat i). split; [lia|]. apply in_seq. lia.
Qed.

(** X5: in the earlier job list, with at least one page and the current
    page index among the valid ones, the numbered buttons are
    [min(5, totalPages)] consecutive page indices, every one of them a
    valid index, and the current page is always one of them; Previous
    and Next also stay among the valid indices. *)
Theorem X5_page_buttons (totalPages currentPage : Z) :
  1 <= totalPages -> 0 <= currentPage <= totalPages - 1 ->
  let buttons := JobListLegacy.pageNumbers totalPages currentPage in
  let start := Z.max 0 (Z.min (totalPages - 5) (currentPage - 2)) in
  Z.of_nat (List.length buttons) = Z.min 5 totalPages /\
  (forall p, In p buttons <-> start <= p < start + Z.min 5 totalPages) /\
  (forall p, In p buttons -> 0 <= p <= totalPages - 1) /\
  In currentPage buttons /\
  0 <= JobListLegacy.previous currentPage <= totalPages - 1 /\
  0 <= JobListLegacy.next totalPages currentPage <= totalPages - 1.
Proof.
  intros Ht Hc buttons start.
  assert (Hin : forall p, In p buttons <-> start <= p < start + Z.min 5 totalPages).
  { intros p. unfold buttons, JobListLegacy.pageNumbers. fold start.
    rewrite in_map_iff. split.
    - intros (i & <- & Hi). apply In_indices in Hi. lia.
    - intros Hp. exists (p - start). split; [lia|]. apply In_indices. lia. }
  split; [|split; [exact Hin|split; [|split; [|split]]]].
  - unfold buttons, JobListLegacy.pageNumbers, JobListLegacy.indices.
    rewrite !length_map, length_seq. lia.
  - intros p Hp. apply Hin in Hp. lia.
  - apply Hin. lia.
  - unfold JobListLegacy.previous. lia.
  - unfold JobListLegacy.next. lia.
Qed.

Lemma X5_page_buttons_witness :
  JobListLegacy.pageNumbers 12 11 = [7; 8; 9; 10; 11] /\
  In 11 (JobListLegacy.pageNumbers 12 11).
Proof.
  split; [reflexivity|].
  apply (X5_page_buttons 12 11); lia.
Defined.

(** X6: typing the decimal numeral of any (safe) integer [k] into the page
    field selects the page index [k - 1] clamped to the valid indices;
    typing the number the field displays keeps the current page, and
    clearing the field selects the first page. *)
Theorem X6_typed_page_number (props : Pagination.Props) (k : Z) :
  - Js.MAX_SAFE_INTEGER <= k <= Js.MAX_SAFE_INTEGER ->
  1 <= Pagination.totalPages props <= Js.MAX_SAFE_INTEGER ->
  0 <= Pagination.currentPage props <= Pagination.totalPages props - 1 ->
  Pagination.handler props (Pagination.PageInput (Js.String_ k)) =
    Some (Z.min (Z.max (k - 1) 0) (Pagination.totalPages props - 1)) /\
  Pagination.handler props
    (Pagination.PageInput (Js.String_ (Pagination.currentPage props + 1))) =
    Some (Pagination.currentPage props) /\
  Pagination.handler props (Pagination.PageInput "") = Some 0.
Proof.
  unfold Js.MAX_SAFE_INTEGER. intros Hk Ht Hc.
  assert (Hn : forall n, Z.abs n <= 9007199254740992 /\ Z.abs (n - 1) <= 9007199254740992 ->
                         Pagination.handler props (Pagination.PageInput (Js.String_ n)) =
                         Some (Z.min (Z.max (n - 1) 0) (Pagination.totalPages props - 1))).
  { intros n Hn. cbn [Pagination.handler].
    rewrite or_else_Some, parseInt_String; [|exact (proj1 Hn) | apply String_shape].
    rewrite toDouble_small by lia. reflexivity. }
  split; [apply Hn; lia|]. split.
  - rewrite Hn by lia. f_equal. lia.
  - cbn. f_equal. lia.
Qed.

Lemma X6_typed_page_number_witness :
  Pagination.handler Samples.thirdOfFive (Pagination.PageInput (Js.String_ 9)) =
    Some (Z.min (Z.max (9 - 1) 0) (Pagination.totalPages Samples.thirdOfFive - 1)) /\
  Pagination.handler Samples.thirdOfFive
    (Pagination.PageInput (Js.String_ (Pagination.currentPage Samples.thirdOfFive + 1))) =
    Some (Pagination.currentPage Samples.thirdOfFive) /\
  Pagination.handler Samples.thirdOfFive (Pagination.PageInput "") = Some 0.
Proof.
  apply (X6_typed_page_number Samples.thirdOfFive 9);
    unfold Js.MAX_SAFE_INTEGER; simpl; lia.
Defined.

(* ===================================================================== *)
(** ** The address of the job list: malformed input and normal form *)
(* ===================================================================== *)

Lemma get_remove_other (k k' : string) (p : URLSearchParams.t) :
  k <> k' ->
  URLSearchParams.get k' (URLSearchParams.remove k p) = URLSearchParams.get k' p.
Proof.
  intros Hk. induction p as [|[a b] p IH]; cbn; [reflexivity|].
  destruct (String.eqb_spec a k) as [->|Hak]; cbn.
  - destruct (String.eqb_spec k k'); [contradiction | exact IH].
  - destruct (String.eqb_spec a k'); [reflexivity | exact IH].
Qed.

(** Reading a parameter after [set]: the value written for the name
    that was set, the earlier value for every other name. *)
Lemma get_set (k v k' : string) (p : URLSearchParams.t) :
  URLSearchParams.get k' (URLSearchParams.set k v p) =
  if String.eqb k k' then Some v else URLSearchParams.get k' p.
Proof.
  induction p as [|[a b] p IH]; cbn; [reflexivity|].
  destruct (String.eqb_spec a k) as [->|Hak]; cbn.
  - destruct (String.eqb_spec k k') as [->|Hk]; [reflexivity|].
    now apply get_remove_other.
  - destruct (String.eqb_spec a k') as [->|Hak'].
    + destruct (String.eqb_spec k k'); [congruence | reflexivity].
    + exact IH.
Qed.

(** X7: whatever parameters the address carries, the state the job list
    starts from has non-empty status, task and queue values and a
    non-negative page index.  A status, task or queue parameter that is
    missing or empty reads as ['all'], and a page parameter that is
    missing or empty as the first page; so does a page parameter that,
    with no white space in front, starts with a character that is
    neither a digit nor a sign.  A page parameter that is the decimal
    numeral of an integer [k], followed by any text that does
    not continue the numeral, reads as the index [k - 1] when [k] is
    positive and at most [2^53], and as the first page when [k] is zero
    or negative; beyond [2^53] it reads as the number that stores the
    predecessor of the number that stores [k], unless that number is
    infinite, as it is from [2^1024] on: then it reads as the first
    page again. *)
Theorem X7_initial_state_of_any_address (searchParams : URLSearchParams.t) :
  let st := JobList.initialState searchParams in
  (JobList.statusFilter st <> "" /\ JobList.taskFilter st <> "" /\
   JobList.queueFilter st <> "" /\ 0 <= JobList.currentPage st) /\
  (forall k, In k ["status"; "task"; "queue"] ->
     URLSearchParams.get k searchParams = None \/
     URLSearchParams.get k searchParams = Some "" ->
     JobList.initialState searchParams =
     JobList.initialState (URLSearchParams.set k "all" searchParams)) /\
  (URLSearchParams.get "page" searchParams = None \/
   URLSearchParams.get "page" searchParams = Some "" ->
   JobList.currentPage st = 0) /\
  (forall c r,
     URLSearchParams.get "page" searchParams = Some (String c r) ->
     Js.skip_spaces (String c r) = String c r ->
     Js.digit_value c = None -> c <> "-"%char -> c <> "+"%char ->
     JobList.currentPage st = 0) /\
  (forall k rest,
     URLSearchParams.get "page" searchParams = Some (Js.decimal k ++ rest) ->
     no_digit rest ->
     (k <= 9007199254740992 -> JobList.currentPage st = Z.max (k - 1) 0) /\
     (9007199254740992 < k ->
      JobList.currentPage st =
      if Js.isFinite (Js.toDouble k) then Js.toDouble (Js.toDouble k - 1) else 0) /\
     (Js.Infinity <= k -> JobList.currentPage st = 0)).
Proof.
  cbv zeta. split; [apply initialState_invariant|]. split; [|split; [|split]].
  - intros k Hk Hget. unfold JobList.initialState. rewrite !get_set.
    destruct Hk as [<- | [<- | [<- | []]]]; cbn [String.eqb Ascii.eqb Bool.eqb];
      cbn -[Js.or_else JobList.pageIndex URLSearchParams.get];
      destruct Hget as [-> | ->]; reflexivity.
  - unfold JobList.initialState. cbn [JobList.currentPage].
    intros [-> | ->]; reflexivity.
  - intros c r Hget Hskip Hd Hminus Hplus.
    unfold JobList.initialState. cbn [JobList.currentPage]. rewrite Hget.
    rewrite or_else_Some by discriminate.
    unfold JobList.pageIndex, Js.parseInt. rewrite Hskip. clear Hskip Hget.
    destruct c as [[] [] [] [] [] [] [] []];
      try (vm_compute in Hd; discriminate Hd);
      try (exfalso; apply Hminus; reflexivity);
      try (exfalso; apply Hplus; reflexivity);
      cbn [Js.parse_digits]; rewrite Hd; reflexivity.
  - intros k rest Hget Hrest.
    unfold JobList.initialState. cbn [JobList.currentPage]. rewrite Hget.
    pose proof (parseInt_decimal k rest Hrest) as Hp.
    assert (Hne : Js.decimal k ++ rest <> "").
    { intros He. rewrite He in Hp. discriminate Hp. }
    rewrite or_else_Some by exact Hne.
    rewrite (pageIndex_parseInt _ _ Hp).
    pose proof two53_lt_Infinity as Hi.
    split; [|split]; intros Hk.
    + destruct (Z.le_gt_cases (- 9007199254740992) k) as [Hlo|Hlo].
      * rewrite (toDouble_small k) by lia.
        rewrite isFinite_small by lia. cbn [andb].
        destruct (Z.gtb_spec k 0); [|lia].
        rewrite toDouble_small by lia. lia.
      * pose proof (proj2 (proj2 (toDouble_sign k)) ltac:(lia)) as Hneg.
        destruct (Z.gtb_spec (Js.toDouble k) 0); [lia|].
        rewrite andb_false_r. lia.
    + destruct (toDouble_large_bounds k Hk) as (Hlo & Hhi).
      destruct (Z.gtb_spec (Js.toDouble k) 0); [|lia].
      now rewrite andb_true_r.
    + rewrite (toDouble_Infinity k Hk). reflexivity.
Qed.

Lemma X7_initial_state_of_any_address_witness :
  let searchParams := [("status", ""); ("page", "-3 or so")] in
  JobList.initialState searchParams =
  JobList.initialState (URLSearchParams.set "status" "all" searchParams) /\
  JobList.currentPage (JobList.initialState searchParams) = Z.max (- 3 - 1) 0.
Proof.
  destruct (X7_initial_state_of_any_address [("status", ""); ("page", "-3 or so")])
    as (_ & Hall & _ & _ & Hpage).
  split.
  - apply (Hall "status"); [cbn; auto | right; reflexivity].
  - destruct (Hpage (- 3) " or so" eq_refl eq_refl) as (Hsafe & _).
    apply Hsafe. lia.
Defined.

(** X8: the parameters the job list writes to the address use only the
    names [q], [status], [task], [queue] and [page], each at most once;
    no written value is empty, and a value at its default (['all'] for
    the three drop-downs, page 1) is never written. *)
Theorem X8_address_normal_form (st : JobList.State) :
  let ps := JobList.stateParams st in
  NoDup (map fst ps) /\
  incl (map fst ps) ["q"; "status"; "task"; "queue"; "page"] /\
  (forall k v, In (k, v) ps ->
     v <> "" /\
     (In k ["status"; "task"; "queue"] -> v <> "all") /\
     (k = "page" -> v <> "1")).
Proof.
  destruct st as [q s t u p]. unfold JobList.stateParams.
  cbn [JobList.searchTerm JobList.statusFilter JobList.taskFilter
       JobList.queueFilter JobList.currentPage].
  rewrite num_or_zero_id.
  destruct (String_shape (Js.toDouble (p + 1))) as (Hpe & Hp1).
  generalize dependent (Js.toDouble (p + 1)). intros pageOneBased Hpe Hp1.
  set (page := Js.String_ pageOneBased) in *.
  destruct (String.eqb_spec q ""), (String.eqb_spec s ""), (String.eqb_spec s "all"),
    (String.eqb_spec t ""), (String.eqb_spec t "all"),
    (String.eqb_spec u ""), (String.eqb_spec u "all"),
    (Z.eqb_spec pageOneBased 1); cbn;
    (split; [repeat constructor; cbn; intuition discriminate|]);
    (split; [unfold incl; cbn; intuition|]);
    intros k v Hin; cbn in Hin;
    repeat match goal with
           | H : _ \/ _ |- _ => destruct H
           | H : (_, _) = (_, _) |- _ => injection H as <- <-
           | H : False |- _ => destruct H
           end;
    (split; [assumption|split; [cbn; intuition discriminate | intuition discriminate]]).
Qed.

(** X9: opening the job list at any address whose page number leaves
    the page index below [Number.MAX_SAFE_INTEGER] settles after one
    round of the two synchronisation effects: once the address has been
    rewritten from the initial state, the "update state" effect leaves
    the state as it is and the "keep URL in sync" effect leaves the
    address as it is.  For any address at all, the view settles after
    that round exactly when the page index is [0] or one whose
    one-based page number is below [10^21] and has the index as its
    predecessor among the numbers. *)
Theorem X9_sync_settles (searchParams : URLSearchParams.t) :
  let st := JobList.initialState searchParams in
  let url := JobList.syncUrl st searchParams in
  let settled := JobList.syncState url st = st /\ JobList.syncUrl st url = url in
  let pageOneBased := Js.toDouble (JobList.currentPage st + 1) in
  (JobList.currentPage st < Js.MAX_SAFE_INTEGER -> settled) /\
  (settled <->
   JobList.currentPage st = 0 \/
   (0 < pageOneBased < 10 ^ 21 /\
    Js.toDouble (pageOneBased - 1) = JobList.currentPage st)).
Proof.
  intros st url settled pageOneBased.
  destruct (initialState_invariant searchParams) as (Hs & Ht & Hq & Hp).
  fold st in Hs, Ht, Hq, Hp.
  assert (E : settled <-> JobList.initialState (JobList.stateParams st) = st).
  { unfold settled, url.
    rewrite !syncUrl_stateParams, syncState_initialState.
    split; [intros (H & _); exact H | intros H; split; [exact H | reflexivity]]. }
  split.
  - intros Hsafe. apply E, initialState_stateParams.
    unfold JobList.wellFormed. auto.
  - rewrite E, initialState_stateParams_iff. unfold pageOneBased.
    split; [intros (_ & _ & _ & H); exact H | intros H; auto].
Qed.

Lemma X9_sync_settles_witness :
  (let searchParams := [("status", "all"); ("page", "4x"); ("utm", "mail")] in
   let st := JobList.initialState searchParams in
   let url := JobList.syncUrl st searchParams in
   url = [("page", "4")] /\
   JobList.syncState url st = st /\ JobList.syncUrl st url = url) /\
  (let st := JobList.initialState paddedAddress in
   let url := JobList.syncUrl st paddedAddress in
   JobList.currentPage st = 10 ^ 21 /\ url = [("page", "1e+21")] /\
   JobList.syncState url st <> st).
Proof.
  split.
  - split; [reflexivity|].
    destruct (X9_sync_settles [("status", "all"); ("page", "4x"); ("utm", "mail")])
      as (Hsafe & _).
    apply Hsafe. vm_compute. reflexivity.
  - split; [vm_compute; reflexivity|]. split; [vm_compute; reflexivity|].
    intros Hs.
    destruct (X9_sync_settles paddedAddress) as (_ & Hsettled).
    destruct (proj1 Hsettled (conj Hs (syncUrl_stateParams _ _)))
      as [H | ((_ & H) & _)]; vm_compute in H; discriminate H.
Defined.

(** X10: choosing any value of the status drop-down, or any value the
    task drop-down offers for the fetched aggregate groups, or typing
    any search text, leaves the job list on its first page in a state
    that survives the round trip through the address. *)
Theorem X10_selection_round_trips
  (sort : list string -> list string) (groups : list Group)
  (st : JobList.State) (filterType value : string) :
  (forall l x, In x (sort l) -> In x l) ->
  JobList.wellFormed st ->
  (filterType = "status" /\ In value JobListView.statusOptions) \/
  (filterType = "task" /\ In value (JobListView.nameOptions sort groups)) \/
  filterType = "search" ->
  let st' := JobList.handleFilterChange filterType value st in
  JobList.currentPage st' = 0 /\
  JobList.initialState (JobList.stateParams st') = st'.
Proof.
  intros Hsort Hwf Hsel st'. split.
  - unfold st', JobList.handleFilterChange.
    destruct (String.eqb filterType "status"), (String.eqb filterType "task"),
      (String.eqb filterType "search"); reflexivity.
  - apply initialState_stateParams.
    destruct Hsel as [[-> Hv] | [[-> Hv] | ->]].
    + apply handleFilterChange_invariant; [|assumption].
      cbn in Hv. intuition (subst; discriminate).
    + apply handleFilterChange_invariant; [|assumption].
      destruct Hv as [<- | Hv]; [discriminate|].
      unfold JobListView.uniqueNames in Hv. apply Hsort in Hv.
      apply in_flat_map in Hv. destruct Hv as (g & _ & Hg).
      destruct (JobListView.firstKey g) as [s|]; [|contradiction].
      destruct (Js.truthy (Some s)) eqn:E; [|contradiction].
      destruct Hg as [<- | []]. intros ->. discriminate.
    + destruct Hwf as (Hs & Ht & Hq & Hp).
      unfold st', JobList.handleFilterChange, JobList.wellFormed, Js.MAX_SAFE_INTEGER.
      cbn. repeat split; (assumption || lia).
Qed.

Lemma X10_selection_round_trips_witness :
  let groups := [ {| keys := Some [Some "send_email"]; distinctCount_id := Some 3 |};
                  {| keys := Some [None]; distinctCount_id := Some 1 |} ] in
  let st' := JobList.handleFilterChange "task" "send_email" Samples.filtered in
  JobList.currentPage st' = 0 /\
  JobList.initialState (JobList.stateParams st') = st'.
Proof.
  apply (X10_selection_round_trips (fun l => l)
           [ {| keys := Some [Some "send_email"]; distinctCount_id := Some 3 |};
             {| keys := Some [None]; distinctCount_id := Some 1 |} ]
           Samples.filtered "task" "send_email").
  - auto.
  - unfold JobList.wellFormed, Js.MAX_SAFE_INTEGER; simpl.
    repeat split; (discriminate || lia).
  - right. left. split; [reflexivity|]. cbn. auto.
Defined.

(** X11: the queue drop-down calls [handleFilterChange('queue', value)],
    which has no branch for ['queue']: whatever is chosen, the queue
    filter and with it the filter sent to the server stay as they were,
    and only the page index is reset. *)
Theorem X11_queue_choice_is_ignored (value : string) (st : JobList.State) :
  let st' := JobList.handleFilterChange "queue" value st in
  JobList.queueFilter st' = JobList.queueFilter st /\
  JobListView.filter_ (JobListView.variables st') =
  JobListView.filter_ (JobListView.variables st) /\
  JobList.searchTerm st' = JobList.searchTerm st /\
  JobList.currentPage st' = 0.
Proof. repeat split. Qed.

(* ===================================================================== *)
(** ** The rows the job list shows *)
(* ===================================================================== *)

Lemma getJobStatus_literal (j : Job) : In (JobList.getJobStatus j) statuses.
Proof.
  unfold JobList.getJobStatus, statuses.
  destruct (Js.truthy (lockedAt j)), (Js.truthy (lastError j)), (attempts j >? 0);
    cbn; auto.
Qed.

Lemma filter_none {A : Type} (f : A -> bool) (l : list A) :
  (forall x, In x l -> f x = false) -> filter f l = [].
Proof.
  induction l as [|a l IH]; cbn; intros H; [reflexivity|].
  rewrite (H a) by auto. apply IH. auto.
Qed.

Lemma filter_all {A : Type} (f : A -> bool) (l : list A) :
  (forall x, In x l -> f x = true) -> filter f l = l.
Proof.
  induction l as [|a l IH]; cbn; intros H; [reflexivity|].
  rewrite (H a) by auto. f_equal. apply IH. auto.
Qed.

Lemma buildFilter_unknown (s t q : string) :
  ~ In s ("all" :: statuses) ->
  JobList.buildFilter s t q = JobList.buildFilter "all" t q.
Proof.
  intros Hs. cbn in Hs. unfold JobList.buildFilter.
  destruct (String.eqb_spec s "running"), (String.eqb_spec s "failed"),
    (String.eqb_spec s "completed"), (String.eqb_spec s "pending");
    try (exfalso; apply Hs; subst; tauto).
  reflexivity.
Qed.

(** X12: a status value that is neither ['all'] nor one of the four
    literals (it can only come from the address) adds no condition to
    the filter sent to the server, yet on the client it matches no job:
    the list shows no row, whatever rows were fetched. *)
Theorem X12_unknown_status_shows_nothing
  (toLowerCase : string -> string) (search s t q : string) (page : Z) (jobs : list Job) :
  ~ In s ("all" :: statuses) ->
  JobList.buildFilter s t q = JobList.buildFilter "all" t q /\
  JobListView.filteredJobs toLowerCase
    {| JobList.searchTerm := search; JobList.statusFilter := s;
       JobList.taskFilter := t; JobList.queueFilter := q;
       JobList.currentPage := page |} jobs = [].
Proof.
  intros Hs. split; [now apply buildFilter_unknown|]. cbn in Hs.
  - apply filter_none. intros j _. cbn [JobList.statusFilter].
    unfold JobList.matchesStatus.
    destruct (String.eqb_spec s "all"); [exfalso; apply Hs; subst; tauto|].
    destruct (String.eqb_spec (JobList.getJobStatus j) s) as [E|_].
    + exfalso. apply Hs. right. rewrite <- E. apply getJobStatus_literal.
    + cbn. now rewrite andb_false_r.
Qed.

Lemma X12_unknown_status_shows_nothing_witness :
  JobList.buildFilter "done" "all" "all" = None /\
  JobListView.filteredJobs (fun s => s)
    {| JobList.searchTerm := ""; JobList.statusFilter := "done";
       JobList.taskFilter := "all"; JobList.queueFilter := "all";
       JobList.currentPage := 0 |} [Samples.dead; Samples.succeeded] = [].
Proof.
  apply (X12_unknown_status_shows_nothing (fun s => s) "" "done" "all" "all" 0
           [Samples.dead; Samples.succeeded]).
  cbn. intuition discriminate.
Defined.

Lemma selects_all (j : Job) (t q : string) :
  ConnectionFilter.selects (JobList.buildFilter "all" t q) j =
  JobList.matchesTask t j && JobList.matchesQueue q j.
Proof.
  unfold JobList.buildFilter, JobList.matchesTask, JobList.matchesQueue.
  destruct j as [i qn ti k a m e l].
  destruct (String.eqb t "all"), (String.eqb q "all"); cbn;
    destruct qn; cbn; rewrite ?andb_true_r; reflexivity.
Qed.

(** X13: when the rows fetched are consistent and all satisfy the filter
    the list sent to the server, and no search text is entered, the
    client-side filter keeps every row for the status values ['all'],
    ['running'], ['failed'] and ['completed']; for ['pending'] it drops
    exactly the fetched rows that carry an error, so that page shows
    fewer rows than were fetched. *)
Theorem X13_client_filter_after_server_filter
  (toLowerCase : string -> string) (s t q : string) (page : Z) (rows : list Job) :
  Forall consistent rows ->
  Forall (fun j => ConnectionFilter.selects (JobList.buildFilter s t q) j = true) rows ->
  let st := {| JobList.searchTerm := ""; JobList.statusFilter := s;
               JobList.taskFilter := t; JobList.queueFilter := q;
               JobList.currentPage := page |} in
  (In s ["all"; "running"; "failed"; "completed"] ->
   JobListView.filteredJobs toLowerCase st rows = rows) /\
  (s = "pending" ->
   JobListView.filteredJobs toLowerCase st rows =
   filter (fun j => negb (ConnectionFilter.present (lastError j))) rows).
Proof.
  intros Hc Hsel st. rewrite Forall_forall in Hc, Hsel. split.
  - intros Hs. apply filter_all. intros j Hj.
    specialize (Hc j Hj). specialize (Hsel j Hj). cbn in Hsel |- *.
    unfold JobList.matchesStatus. rewrite (getJobStatus_cases j Hc).
    destruct Hs as [<- | [<- | [<- | [<- | []]]]];
      rewrite ?selects_all, ?selects_running, ?selects_failed, ?selects_completed in Hsel;
      destruct (ConnectionFilter.present (lockedAt j)),
        (ConnectionFilter.present (lastError j)), (attempts j >? 0),
        (JobList.matchesTask t j), (JobList.matchesQueue q j);
      cbn in *; congruence.
  - intros ->. apply filter_ext_in. intros j Hj.
    specialize (Hc j Hj). specialize (Hsel j Hj). cbn in Hsel |- *.
    unfold JobList.matchesStatus. rewrite (getJobStatus_cases j Hc).
    rewrite selects_pending in Hsel.
    assert (Ha : 0 <= attempts j) by apply Hc.
    destruct (ConnectionFilter.present (lockedAt j)),
      (ConnectionFilter.present (lastError j)), (Z.gtb_spec (attempts j) 0),
      (Z.eqb_spec (attempts j) 0),
      (JobList.matchesTask t j), (JobList.matchesQueue q j);
      cbn in *; try congruence; lia.
Qed.

Lemma X13_client_filter_after_server_filter_witness :
  let st := {| JobList.searchTerm := ""; JobList.statusFilter := "pending";
               JobList.taskFilter := "all"; JobList.queueFilter := "all";
               JobList.currentPage := 0 |} in
  JobListView.filteredJobs (fun s => s) st [Samples.reset] = [].
Proof.
  apply (X13_client_filter_after_server_filter (fun s => s) "pending" "all" "all" 0
           [Samples.reset]).
  - repeat constructor; cbn; (lia || discriminate).
  - repeat constructor.
  - reflexivity.
Defined.

(* ===================================================================== *)
(** ** Dashboard counts against the statuses of the job list *)
(* ===================================================================== *)

Lemma count_ext (p p' : Job -> bool) (jobs : list Job) :
  (forall j, In j jobs -> p j = p' j) -> count p jobs = count p' jobs.
Proof.
  intros H. unfold count. f_equal. f_equal. now apply filter_ext_in.
Qed.

(** The four statuses of the job list split every population. *)
Lemma shown_partition (jobs : list Job) :
  Z.of_nat (List.length jobs) =
  shown "pending" jobs + shown "running" jobs
  + shown "failed" jobs + shown "completed" jobs.
Proof.
  unfold shown.
  induction jobs as [|j jobs IH]; [reflexivity|].
  rewrite !count_cons. cbn [List.length]. rewrite Nat2Z.inj_succ, IH.
  destruct (getJobStatus_literal j) as [E | [E | [E | [E | []]]]];
    rewrite <- E; simpl String.eqb; lia.
Qed.

(** X14: for every scanned population, the running, failed and
    completed counts of the job-scan statistics are the numbers of jobs
    the job list shows as running, failed and completed; the pending
    count is at least the number shown as pending, the excess being the
    jobs counted twice. *)
Theorem X14_scan_counts_are_list_statuses (jobs : list Job) :
  let s := AppScan.jobStats jobs in
  running s = shown "running" jobs /\
  failed s = shown "failed" jobs /\
  completed s = shown "completed" jobs /\
  (Forall consistent jobs ->
   shown "pending" jobs <= pending s /\
   pending s - shown "pending" jobs
   = pending s + running s + failed s + completed s - total s).
Proof.
  cbn [AppScan.jobStats running failed completed pending total].
  assert (Hr : count AppScan.isRunning jobs = shown "running" jobs).
  { apply count_ext. intros j _. unfold AppScan.isRunning, JobList.getJobStatus.
    destruct (Js.truthy (lockedAt j)), (Js.truthy (lastError j)), (attempts j >? 0);
      reflexivity. }
  assert (Hf : count AppScan.isFailed jobs = shown "failed" jobs).
  { apply count_ext. intros j _. unfold AppScan.isFailed, JobList.getJobStatus.
    destruct (Js.truthy (lockedAt j)), (Js.truthy (lastError j)), (attempts j >? 0);
      reflexivity. }
  assert (Hc : count AppScan.isCompleted jobs = shown "completed" jobs).
  { apply count_ext. intros j _. unfold AppScan.isCompleted, JobList.getJobStatus.
    destruct (Js.truthy (lockedAt j)), (Js.truthy (lastError j)), (attempts j >? 0);
      reflexivity. }
  split; [exact Hr|]. split; [exact Hf|]. split; [exact Hc|].
  intros Hjobs.
  pose proof (AppScan_total_le_sum jobs Hjobs) as Hle.
  pose proof (shown_partition jobs) as Hp. lia.
Qed.

Lemma X14_scan_counts_are_list_statuses_witness :
  let jobs := [Samples.retrying; Samples.dead; Samples.succeeded] in
  let s := AppScan.jobStats jobs in
  shown "pending" jobs <= pending s /\
  pending s - shown "pending" jobs
  = pending s + running s + failed s + completed s - total s.
Proof.
  apply (X14_scan_counts_are_list_statuses
           [Samples.retrying; Samples.dead; Samples.succeeded]).
  repeat constructor; cbn; (lia || discriminate).
Defined.

(** The three filters of the dashboard query select the rows the job
    list shows as running, failed and completed. *)
Lemma dashboard_filters (j : Job) :
  consistent j ->
  ConnectionFilter.satisfies j DashboardQuery.runningFilter
  = String.eqb (JobList.getJobStatus j) "running" /\
  ConnectionFilter.satisfies j DashboardQuery.failedFilter
  = String.eqb (JobList.getJobStatus j) "failed" /\
  ConnectionFilter.satisfies j DashboardQuery.completedFilter
  = String.eqb (JobList.getJobStatus j) "completed".
Proof.
  intros Hj. rewrite (getJobStatus_cases j Hj).
  destruct j as [i qn ti k [|a|a] m [e|] [l|]]; cbn; repeat split.
Qed.

(** X15: when the response carries the exact counts of the dashboard
    query's connections over a population of consistent rows, every
    count of the dashboard, the pending count obtained by subtraction
    included, is the number of rows the job list shows with that status,
    and the four counts add up to the total. *)
Theorem X15_aggregate_counts_are_list_statuses
  (jobs : list Job) (data : App.DashboardData) :
  Forall consistent jobs ->
  DashboardQuery.exact jobs data ->
  let s := App.jobStats data in
  pending s = shown "pending" jobs /\
  running s = shown "running" jobs /\
  failed s = shown "failed" jobs /\
  completed s = shown "completed" jobs /\
  total s = pending s + running s + failed s + completed s.
Proof.
  intros Hc (Ht & Hr & Hf & Hd).
  rewrite Forall_forall in Hc.
  assert (Er : count (fun j => ConnectionFilter.satisfies j DashboardQuery.runningFilter) jobs
               = shown "running" jobs).
  { apply count_ext. intros j Hj. apply (dashboard_filters j (Hc j Hj)). }
  assert (Ef : count (fun j => ConnectionFilter.satisfies j DashboardQuery.failedFilter) jobs
               = shown "failed" jobs).
  { apply count_ext. intros j Hj. apply (dashboard_filters j (Hc j Hj)). }
  assert (Ed : count (fun j => ConnectionFilter.satisfies j DashboardQuery.completedFilter) jobs
               = shown "completed" jobs).
  { apply count_ext. intros j Hj. apply (dashboard_filters j (Hc j Hj)). }
  pose proof (shown_partition jobs) as Hp.
  pose proof (count_nonneg (fun j => String.eqb (JobList.getJobStatus j) "pending") jobs).
  fold (shown "pending" jobs) in *.
  cbn. rewrite Ht, Hr, Hf, Hd, Er, Ef, Ed. cbn [Js.nullish].
  rewrite !num_or_zero_id. repeat split; lia.
Qed.

Lemma X15_aggregate_counts_are_list_statuses_witness :
  let jobs := [Samples.retrying; Samples.dead; Samples.succeeded; Samples.reset] in
  let s := App.jobStats {| App.total_totalCount := Some 4;
                           App.running_totalCount := Some 0;
                           App.failed_totalCount := Some 3;
                           App.completed_totalCount := Some 1 |} in
  pending s = shown "pending" jobs /\
  running s = shown "running" jobs /\
  failed s = shown "failed" jobs /\
  completed s = shown "completed" jobs /\
  total s = pending s + running s + failed s + completed s.
Proof.
  apply (X15_aggregate_counts_are_list_statuses
           [Samples.retrying; Samples.dead; Samples.succeeded; Samples.reset]).
  - repeat constructor; cbn; (lia || discriminate).
  - repeat split.
Defined.

(** X16: the status pie of the dashboard has a slice exactly for each
    count that is positive, so it never shows an empty or negative
    slice; with the counts derived from a server response without
    negative counts, the slices add up to the four counts together. *)
Theorem X16_status_pie (stats : JobStats) (data : App.DashboardData) :
  (forall item, In item (statusData stats) -> 0 < value item) /\
  (forall lbl v, In (lbl, v) [("Pending", pending stats); ("Running", running stats);
                              ("Completed", completed stats); ("Failed", failed stats)] ->
     (0 < v <-> exists c, In {| label := lbl; value := v; color := c |} (statusData stats))) /\
  (0 <= Js.nullish (App.running_totalCount data) 0 ->
   0 <= Js.nullish (App.failed_totalCount data) 0 ->
   0 <= Js.nullish (App.completed_totalCount data) 0 ->
   let s := App.jobStats data in
   fold_right Z.add 0 (map value (statusData s))
   = pending s + running s + failed s + completed s).
Proof.
  split; [|split].
  - intros item Hin. unfold statusData in Hin. apply filter_In in Hin.
    destruct Hin as (_ & Hv). lia.
  - intros lbl v Hin. cbn [In] in Hin. unfold statusData. split.
    + intros Hv.
      destruct Hin as [E | [E | [E | [E | []]]]]; injection E as <- <-;
        eexists; apply filter_In; (split; [cbn; eauto 6 | cbn; lia]).
    + intros (c & Hc). apply filter_In in Hc. cbn in Hc. lia.
  - intros Hr Hf Hc. cbn -[Z.gtb].
    rewrite !num_or_zero_id.
    set (r := Js.nullish (App.running_totalCount data) 0) in *.
    set (f := Js.nullish (App.failed_totalCount data) 0) in *.
    set (c := Js.nullish (App.completed_totalCount data) 0) in *.
    set (p := Z.max 0 _).
    assert (Hp : 0 <= p) by (unfold p; lia).
    destruct (Z.gtb_spec p 0), (Z.gtb_spec r 0), (Z.gtb_spec c 0), (Z.gtb_spec f 0);
      cbn; lia.
Qed.

Lemma X16_status_pie_witness :
  let s := App.jobStats Samples.steady in
  fold_right Z.add 0 (map value (statusData s))
  = pending s + running s + failed s + completed s.
Proof.
  apply (X16_status_pie (App.jobStats Samples.steady) Samples.steady); cbn; lia.
Defined.

(* ===================================================================== *)
(** ** Several mutations in a row *)
(* ===================================================================== *)

Section Requests.

Import Server.

Context {Error Rows : Type}.
Variable pg : list Call -> string -> list Param -> Error + Rows.

Lemma run_bind {A B : Type} (c : M Error A) (f : A -> M Error B) (w : World Error) :
  run (bind c f) w =
  match run c w with
  | (inr a, w1) => run (f a) w1
  | (inl e, w1) => (inl e, w1)
  end.
Proof.
  unfold run. cbn. destruct (runState (unEitherT c) w) as [[e|a] w1]; reflexivity.
Qed.

Lemma run_ret {A : Type} (a : A) (w : World Error) :
  run (ret a : M Error A) w = (inr a, w).
Proof. reflexivity. Qed.

(** The statement and values each field of a request sends. *)
Lemma resolveAll_run (fields : list (Mutation * string)) : forall w : World Error,
  exists bs,
    fst (run (resolveAll pg fields) w) = inr bs /\
    List.length bs = List.length fields /\
    calls (snd (run (resolveAll pg fields) w)) =
      (calls w ++ map (fun f => (statement (fst f), values (fst f) (snd f))) fields)%list /\
    List.length (console (snd (run (resolveAll pg fields) w))) =
      (List.length (console w) + List.length (filter negb bs))%nat.
Proof.
  induction fields as [|[m jobId] rest IH]; intros w.
  - exists []. cbn. rewrite List.app_nil_r. repeat split. lia.
  - cbn [resolveAll]. rewrite run_bind, run_resolve. cbv zeta.
    destruct (pg (calls w) (statement m) (values m jobId)) as [e|r];
      rewrite run_bind;
      match goal with
      | |- context [run (resolveAll pg rest) ?w1] =>
          destruct (IH w1) as (bs & Hr & Hl & Hc & Hk);
          destruct (run (resolveAll pg rest) w1) as [[e'|bs'] w2] eqn:E;
          cbn in Hr; [discriminate|]; injection Hr as ->
      end;
      rewrite run_ret; cbn [fst snd] in *; cbn [calls console] in *.
    + exists (false :: bs). cbn [List.length filter negb map fst snd].
      rewrite Hc, Hk, <- List.app_assoc, List.length_app. cbn. repeat split; lia.
    + exists (true :: bs). cbn [List.length filter negb map fst snd].
      rewrite Hc, Hk, <- List.app_assoc. cbn. repeat split; lia.
Qed.

End Requests.

(** X17: a request with any number of management mutations sends
    exactly one statement per field, in the order of the fields and
    whatever the earlier ones did; it never fails as a whole, returns
    one boolean per field, and writes one [console.error] line for each
    [false] among them. *)
Theorem X17_mutations_in_sequence
  (Error Rows : Type) (pg : list Server.Call -> string -> list Server.Param -> Error + Rows)
  (fields : list (Server.Mutation * string)) (w : Server.World Error) :
  let result := Server.run (resolveAll pg fields) w in
  exists bs,
    fst result = inr bs /\
    List.length bs = List.length fields /\
    Server.calls (snd result) =
      (Server.calls w ++
       map (fun f => (Server.statement (fst f), Server.values (fst f) (snd f))) fields)%list /\
    List.length (Server.console (snd result)) =
      (List.length (Server.console w) + List.length (filter negb bs))%nat.
Proof. apply resolveAll_run. Qed.

(* ===================================================================== *)
(** ** The action handlers of the job list *)
(* ===================================================================== *)

Section HandlerFacts.

Import Client.

Variable confirm : string -> bool.
Variable mutate : Action -> string -> string + option bool.

(** What a handler does, by the answer to its confirmation and the
    fate of the mutation promise. *)
Lemma run_handle (a : Action) (jobId : string) (w : World) :
  run (handle confirm mutate a jobId) w =
  let asked := match prompt a with
               | Some message => (prompts w ++ [message])%list
               | None => prompts w
               end in
  let confirmed := match prompt a with
                   | Some message => confirm message
                   | None => true
                   end in
  if confirmed then
    match mutate a jobId with
    | inr _ =>
        (inr tt, {| stopped := true; prompts := asked;
                    sent := (sent w ++ [(a, jobId)])%list;
                    toasts := (toasts w ++ [toast_success (successMessage a)])%list;
                    refetches := refetches w + 1 |})
    | inl message =>
        (inr tt, {| stopped := true; prompts := asked;
                    sent := (sent w ++ [(a, jobId)])%list;
                    toasts := (toasts w ++ [toast_error (failurePrefix a ++ message)])%list;
                    refetches := refetches w |})
    end
  else
    (inr tt, {| stopped := true; prompts := asked; sent := sent w;
                toasts := toasts w; refetches := refetches w |}).
Proof.
  destruct a; cbn;
    try match goal with
        | |- context [confirm ?m] => destruct (confirm m); cbn
        end;
    try match goal with
        | |- context [mutate ?x jobId] => destruct (mutate x jobId)
        end; reflexivity.
Qed.

End HandlerFacts.

(** X18: Cancel and Complete ask for confirmation first and, when the
    user declines, send no mutation, show no toast and do not refetch;
    Retry asks nothing and always sends its mutation.  No handler lets
    an error escape, and each stops the click from reaching the row. *)
Theorem X18_confirmation_gate
  (confirm : string -> bool) (mutate : Action -> string -> string + option bool)
  (a : Action) (jobId : string) (w : Client.World) :
  let result := Client.run (Client.handle confirm mutate a jobId) w in
  let after := snd result in
  fst result = inr tt /\ Client.stopped after = true /\
  match Client.prompt a with
  | None =>
      Client.prompts after = Client.prompts w /\
      Client.sent after = (Client.sent w ++ [(a, jobId)])%list
  | Some message =>
      Client.prompts after = (Client.prompts w ++ [message])%list /\
      if confirm message
      then Client.sent after = (Client.sent w ++ [(a, jobId)])%list
      else Client.sent after = Client.sent w /\
           Client.toasts after = Client.toasts w /\
           Client.refetches after = Client.refetches w
  end.
Proof.
  cbv zeta. rewrite run_handle. cbv zeta.
  destruct a; cbn [Client.prompt];
    try match goal with
        | |- context [confirm ?m] => destruct (confirm m)
        end;
    try match goal with
        | |- context [mutate ?x jobId] => destruct (mutate x jobId)
        end; cbn; repeat split.
Qed.

(** X19: a handler shows its success toast and refetches once whenever
    the mutation promise is fulfilled, whatever boolean it carries; the
    failure toast appears only for a rejected promise.  As the resolver
    answers a rejected database query with [false] instead of an error,
    a confirmed action whose query the database rejected is reported to
    the user as a success. *)
Theorem X19_success_toast_ignores_result
  (Error Rows : Type) (pg : list Server.Call -> string -> list Server.Param -> Error + Rows)
  (sw : Server.World Error)
  (confirm : string -> bool) (mutate : Action -> string -> string + option bool)
  (a : Action) (jobId : string) (w : Client.World) :
  (forall message, Client.prompt a = Some message -> confirm message = true) ->
  let after := snd (Client.run (Client.handle confirm mutate a jobId) w) in
  let served := fst (Server.run (Server.resolve pg (Client.mutation a) jobId) sw) in
  match mutate a jobId with
  | inr _ =>
      Client.toasts after =
        (Client.toasts w ++ [Client.toast_success (Client.successMessage a)])%list /\
      Client.refetches after = Client.refetches w + 1
  | inl message =>
      Client.toasts after =
        (Client.toasts w ++ [Client.toast_error (Client.failurePrefix a ++ message)])%list /\
      Client.refetches after = Client.refetches w
  end /\
  (forall error,
     pg (Server.calls sw) (Server.statement (Client.mutation a))
        (Server.values (Client.mutation a) jobId) = inl error ->
     served = inr false /\
     (mutate a jobId = inr (Some false) ->
      Client.toasts after =
        (Client.toasts w ++ [Client.toast_success (Client.successMessage a)])%list)).
Proof.
  intros Hconfirm. cbv zeta. rewrite run_handle, run_resolve. cbv zeta.
  assert (Hc : match Client.prompt a with
               | Some message => confirm message
               | None => true
               end = true).
  { destruct (Client.prompt a) as [message|]; [now apply Hconfirm | reflexivity]. }
  rewrite Hc. split.
  - destruct (mutate a jobId); cbn; split; reflexivity.
  - intros error Hpg. rewrite Hpg. split; [reflexivity|].
    intros ->. reflexivity.
Qed.

Lemma X19_success_toast_ignores_result_witness :
  let pg : list Server.Call -> string -> list Server.Param -> string + unit :=
    fun _ _ _ => inl "connection refused" in
  let sw : Server.World string := Server.mkWorld [] [] in
  let w := {| Client.stopped := false; Client.prompts := []; Client.sent := [];
              Client.toasts := []; Client.refetches := 0 |} in
  fst (Server.run (Server.resolve pg Server.CancelJob "7") sw) = inr false /\
  Client.toasts (snd (Client.run (Client.handle (fun _ => true)
                                    (fun _ _ => inr (Some false)) Cancel "7") w))
  = [Client.toast_success "Job cancelled"].
Proof.
  pose proof (X19_success_toast_ignores_result string unit
                (fun _ _ _ => inl "connection refused") (Server.mkWorld [] [])
                (fun _ => true) (fun _ _ => inr (Some false)) Cancel "7"
                {| Client.stopped := false; Client.prompts := []; Client.sent := [];
                   Client.toasts := []; Client.refetches := 0 |}
                (fun _ _ => eq_refl)) as (_ & H).
  destruct (H "connection refused" eq_refl) as (Hs & Ht).
  split; [exact Hs | exact (Ht eq_refl)].
Defined.

(* ===================================================================== *)
(** ** The task chart, the queues view and the name drop-downs *)
(* ===================================================================== *)

From Stdlib Require Import Sorting.Sorted Sorting.Permutation.

Lemma In_firstn_list {A : Type} (n : nat) (l : list A) (x : A) :
  In x (firstn n l) -> In x l.
Proof.
  intros H. rewrite <- (firstn_skipn n l). apply in_or_app. now left.
Qed.

Lemma In_skipn_list {A : Type} (n : nat) (l : list A) (x : A) :
  In x (skipn n l) -> In x l.
Proof.
  intros H. rewrite <- (firstn_skipn n l). apply in_or_app. now right.
Qed.

Lemma insertDesc_perm (x : ChartItem) (l : list ChartItem) :
  Permutation (insertDesc x l) (x :: l).
Proof.
  induction l as [|y l IH]; cbn; [reflexivity|].
  destruct (total_ y - total_ x <=? 0); [reflexivity|].
  rewrite IH. apply perm_swap.
Qed.

Lemma sortDesc_perm (l : list ChartItem) : Permutation (sortDesc l) l.
Proof.
  induction l as [|x l IH]; cbn; [reflexivity|].
  rewrite insertDesc_perm. now constructor.
Qed.

Lemma insertDesc_sorted (x : ChartItem) (l : list ChartItem) :
  StronglySorted before l -> StronglySorted before (insertDesc x l).
Proof.
  induction 1 as [|y l Hl IH Hy]; cbn; [repeat constructor|].
  destruct (Z.leb_spec (total_ y - total_ x) 0).
  - constructor; [now constructor|].
    constructor; [unfold before; lia|]. rewrite Forall_forall in *. intros z Hz.
    specialize (Hy z Hz). unfold before in *. lia.
  - constructor; [assumption|].
    rewrite Forall_forall in *. intros z Hz.
    apply (Permutation_in _ (insertDesc_perm x l)) in Hz.
    destruct Hz as [<- | Hz]; [unfold before; lia | now apply Hy].
Qed.

Lemma sortDesc_sorted (l : list ChartItem) : StronglySorted before (sortDesc l).
Proof.
  induction l as [|x l IH]; cbn; [constructor | now apply insertDesc_sorted].
Qed.

Lemma sorted_split (n : nat) (l : list ChartItem) :
  StronglySorted before l ->
  forall x y, In x (firstn n l) -> In y (skipn n l) -> total_ y <= total_ x.
Proof.
  intros Hl. revert n. induction Hl as [|a l Hl IH Ha]; intros n x y Hx Hy.
  - destruct n; contradiction.
  - destruct n as [|n]; [contradiction|]. cbn in Hx, Hy.
    destruct Hx as [<- | Hx]; [|now apply (IH n)].
    rewrite Forall_forall in Ha. apply Ha. now apply (In_skipn_list n).
Qed.

(** X20: the queues view lists every aggregate group exactly once, in
    the order of decreasing job count; the task chart shows at most
    eight bars, the groups with the largest counts in decreasing order:
    no group left out has more jobs than a group shown. *)
Theorem X20_charts_sorted (groups : list Group) :
  let rows := queues groups in
  let items := map (chartItem "Unknown") groups in
  let bars := taskChartData groups in
  Permutation rows (map (chartItem "default") groups) /\
  StronglySorted before rows /\
  List.length bars = Nat.min 8 (List.length groups) /\
  StronglySorted before bars /\
  exists rest,
    Permutation (bars ++ rest) items /\
    forall x y, In x bars -> In y rest -> total_ y <= total_ x.
Proof.
  cbv zeta. unfold queues, taskChartData.
  split; [apply sortDesc_perm|]. split; [apply sortDesc_sorted|].
  set (sorted := sortDesc (map (chartItem "Unknown") groups)).
  assert (Hs : StronglySorted before sorted) by apply sortDesc_sorted.
  assert (Hp : Permutation sorted (map (chartItem "Unknown") groups))
    by apply sortDesc_perm.
  split; [|split].
  - rewrite length_firstn, (Permutation_length Hp), length_map. reflexivity.
  - clear Hp. generalize 8%nat as n.
    induction Hs as [|a l Hl IH Ha]; intros [|n]; cbn; try constructor.
    + apply IH.
    + rewrite Forall_forall in *. intros z Hz. apply Ha.
      now apply (In_firstn_list n).
  - exists (skipn 8 sorted). split.
    + now rewrite firstn_skipn.
    + now apply sorted_split.
Qed.





(** X22: given that sorting only reorders, the names a drop-down offers
    are exactly the non-empty first keys of the aggregate groups, one
    option per such group (groups without a key array, with an empty
    one, or with a null or empty first key give no option); together
    with ['all'] no offered value is empty. *)
Theorem X22_drop_down_names
  (sort : list string -> list string) (groups : list Group) :
  (forall l, Permutation (sort l) l) ->
  (forall x, In x (JobListView.uniqueNames sort groups) <->
             x <> "" /\ exists g, In g groups /\ JobListView.firstKey g = Some x) /\
  (List.length (JobListView.uniqueNames sort groups) <= List.length groups)%nat /\
  (forall x, In x (JobListView.nameOptions sort groups) -> x <> "").
Proof.
  intros Hsort.
  assert (Hin : forall x, In x (JobListView.uniqueNames sort groups) <->
                  x <> "" /\ exists g, In g groups /\ JobListView.firstKey g = Some x).
  { intros x. unfold JobListView.uniqueNames. split.
    - intros H. apply (Permutation_in _ (Hsort _)) in H.
      apply in_flat_map in H. destruct H as (g & Hg & Hx).
      destruct (JobListView.firstKey g) as [s|] eqn:E; [|contradiction].
      destruct (Js.truthy (Some s)) eqn:T; [|contradiction].
      destruct Hx as [<- | []]. split; [intros ->; discriminate | eauto].
    - intros (Hx & g & Hg & E).
      apply (Permutation_in _ (Permutation_sym (Hsort _))).
      apply in_flat_map. exists g. split; [assumption|].
      rewrite E, (truthy_Some x Hx). now left. }
  split; [exact Hin|]. split.
  - unfold JobListView.uniqueNames. rewrite (Permutation_length (Hsort _)).
    clear Hin. induction groups as [|g gs IH]; cbn [flat_map List.length]; [lia|].
    rewrite List.length_app.
    destruct (JobListView.firstKey g) as [s|]; [|cbn [List.length]; lia].
    destruct (Js.truthy (Some s)); cbn [List.length]; lia.
  - intros x [<- | Hx]; [discriminate | now apply Hin in Hx].
Qed.

Lemma X22_drop_down_names_witness :
  let groups := [ {| keys := Some [Some "send_email"]; distinctCount_id := Some 3 |};
                  {| keys := Some [None]; distinctCount_id := Some 1 |};
                  {| keys := None; distinctCount_id := None |} ] in
  JobListView.nameOptions (fun l => l) groups = ["all"; "send_email"] /\
  (forall x, In x (JobListView.nameOptions (fun l => l) groups) -> x <> "").
Proof.
  split; [reflexivity|].
  apply (X22_drop_down_names (fun l => l)
           [ {| keys := Some [Some "send_email"]; distinctCount_id := Some 3 |};
             {| keys := Some [None]; distinctCount_id := Some 1 |};
             {| keys := None; distinctCount_id := None |} ]).
  reflexivity.
Defined.

(* ===================================================================== *)
(** ** What the server-side filter guarantees, and stepping pages *)
(* ===================================================================== *)

Lemma In_dec_status (s : string) : In s ("all" :: statuses) \/ ~ In s ("all" :: statuses).
Proof.
  destruct (in_dec string_dec s ("all" :: statuses)); auto.
Qed.

(** X23: whatever the status value, every row the filter sent to the
    server selects belongs to the chosen task and to the chosen queue;
    and the list sends no filter at all exactly when the task and the
    queue are ['all'] and the status is none of the four literals. *)
Theorem X23_server_filter_task_and_queue (s t q : string) (j : Job) :
  (ConnectionFilter.selects (JobList.buildFilter s t q) j = true ->
   JobList.matchesTask t j = true /\ JobList.matchesQueue q j = true) /\
  (JobList.buildFilter s t q = None <-> ~ In s statuses /\ t = "all" /\ q = "all").
Proof.
  split.
  - intros H.
    assert (Hall : ConnectionFilter.selects (JobList.buildFilter "all" t q) j = true ->
                   JobList.matchesTask t j = true /\ JobList.matchesQueue q j = true).
    { rewrite selects_all. apply andb_true_iff. }
    destruct (In_dec_status s) as [[<- | [<- | [<- | [<- | [<- | []]]]]] | Hs].
    + now apply Hall.
    + rewrite selects_pending in H. apply andb_true_iff in H.
      apply andb_true_iff. apply H.
    + rewrite selects_running in H. apply andb_true_iff in H.
      apply andb_true_iff. apply H.
    + rewrite selects_failed in H. apply andb_true_iff in H.
      apply andb_true_iff. apply H.
    + rewrite selects_completed in H. apply andb_true_iff in H.
      apply andb_true_iff. apply H.
    + rewrite (buildFilter_unknown s t q Hs) in H. now apply Hall.
  - unfold JobList.buildFilter, statuses. cbn [In].
    destruct (String.eqb_spec t "all"), (String.eqb_spec q "all"),
      (String.eqb_spec s "running"), (String.eqb_spec s "failed"),
      (String.eqb_spec s "completed"), (String.eqb_spec s "pending");
      cbn; split; intros H; try discriminate; try reflexivity;
      try (destruct H as (H1 & H2 & H3); (contradiction || (exfalso; apply H1; subst; tauto)));
      repeat split; try assumption; intros HH; intuition congruence.
Qed.

Lemma X23_server_filter_task_and_queue_witness :
  JobList.matchesTask "send_email" Samples.dead = true /\
  JobList.matchesQueue "mail" Samples.dead = true.
Proof.
  apply (X23_server_filter_task_and_queue "bogus" "send_email" "mail" Samples.dead).
  reflexivity.
Defined.

(** X24: with at least one page and a valid current page index, Next
    followed by Previous, and Previous followed by Next, lead back to the
    page they started from unless the first step was stopped at an end:
    Next on the last page and Previous on the first page stay there. *)
Theorem X24_next_previous (props : Pagination.Props) :
  1 <= Pagination.totalPages props ->
  0 <= Pagination.currentPage props <= Pagination.totalPages props - 1 ->
  let cp := Pagination.currentPage props in
  let last := Pagination.totalPages props - 1 in
  (cp < last ->
   Pagination.handler props Pagination.Next = Some (cp + 1) /\
   Pagination.handler (withPage props (cp + 1)) Pagination.Previous = Some cp) /\
  (0 < cp ->
   Pagination.handler props Pagination.Previous = Some (cp - 1) /\
   Pagination.handler (withPage props (cp - 1)) Pagination.Next = Some cp) /\
  (cp = last -> Pagination.handler props Pagination.Next = Some cp) /\
  (cp = 0 -> Pagination.handler props Pagination.Previous = Some cp).
Proof.
  intros Ht Hc. cbn. repeat split; intros; f_equal; lia.
Qed.

Lemma X24_next_previous_witness :
  Pagination.handler Samples.thirdOfFive Pagination.Next = Some 3 /\
  Pagination.handler (withPage Samples.thirdOfFive 3) Pagination.Previous = Some 2.
Proof.
  apply (X24_next_previous Samples.thirdOfFive); cbn; lia.
Defined.
